(** * IncidentManager: the anomaly correlation engine of [full2.py]

    A shallow embedding of the monitoring cycle of [src/full2.py]: spike
    detection on the CPU series, the three counting windows, the remote
    [awk] filters, spike attribution, the detailed log fetch and the report
    handed to the reasoning agent.

    Conventions.
    - A [datetime] is an [instant]: whole seconds since 1970-01-01T00:00:00
      UTC, as a [Z].  CloudWatch datapoints of period 60 and access-log
      stamps carry no sub-second part.
    - Python [int] is [Z]; Python [str] is [string] (bytes of its UTF-8
      encoding); a CPU value (a Python [float]) is an abstract type with its
      comparison and its [:.2f] formatting as section variables.
    - A Python [dict] is an association list in insertion order.
    - The SSM collaborator is an oracle [nat -> string -> ssm_output]: the
      answer to the n-th command sent in the cycle.  A cycle returns the
      report it passes to the agent together with the commands it sent;
      what it prints on the console is left out. *)

From Stdlib Require Import ZArith List String Ascii Bool Lia.
From Stdlib Require Import Permutation Sorted.
Import ListNotations.

Local Open Scope Z_scope.

(** Newline and the string helpers the f-strings need. *)
Definition nl : string := String (ascii_of_nat 10) EmptyString.

(** The double quote, as a one-character string. *)
Definition dq : string := String (ascii_of_nat 34) EmptyString.

Definition digit_char (d : Z) : ascii := ascii_of_nat (48 + Z.to_nat d).

Fixpoint nat_digits (fuel : nat) (n : Z) (acc : string) : string :=
  match fuel with
  | O => acc
  | S f =>
      let acc' := String (digit_char (n mod 10)) acc in
      if n / 10 =? 0 then acc' else nat_digits f (n / 10) acc'
  end.

(** [str(n)] for a Python int. *)
Definition py_str_int (n : Z) : string :=
  if n <? 0 then String "-"%char (nat_digits (S (Z.to_nat (Z.log2 (- n)))) (- n) EmptyString)
  else nat_digits (S (Z.to_nat (Z.log2 n))) n EmptyString.

(** [n] written with at least [w] digits, zero padded ([%02d], [%04d]). *)
Fixpoint zero_pad (w : nat) (s : string) : string :=
  match w with
  | O => s
  | S w' => if Nat.ltb (String.length s) w then zero_pad w' (String "0"%char s) else s
  end.

Definition pad_int (w : nat) (n : Z) : string := zero_pad w (py_str_int n).

(** ** Python's [datetime], for UTC instants *)
Module Datetime.

Definition instant := Z.

(** [timedelta(minutes=m, seconds=s)], in seconds. *)
Definition timedelta (minutes seconds : Z) : Z := minutes * 60 + seconds.

(** Proleptic Gregorian date (year, month, day) of a day number counted
    from 1970-01-01. *)
Definition civil_from_days (days : Z) : Z * Z * Z :=
  let z := days + 719468 in
  let era := z / 146097 in
  let doe := z - era * 146097 in
  let yoe := (doe - doe / 1460 + doe / 36524 - doe / 146096) / 365 in
  let doy := doe - (365 * yoe + yoe / 4 - yoe / 100) in
  let mp := (5 * doy + 2) / 153 in
  let d := doy - (153 * mp + 2) / 5 + 1 in
  let m := if mp <? 10 then mp + 3 else mp - 9 in
  let y := yoe + era * 400 in
  (if m <=? 2 then y + 1 else y, m, d).

(** The inverse: day number of a date. *)
Definition days_from_civil (y m d : Z) : Z :=
  let y' := if m <=? 2 then y - 1 else y in
  let era := y' / 400 in
  let yoe := y' - era * 400 in
  let mp := if m <=? 2 then m + 9 else m - 3 in
  let doy := (153 * mp + 2) / 5 + d - 1 in
  let doe := yoe * 365 + yoe / 4 - yoe / 100 + doy in
  era * 146097 + doe - 719468.

Definition month_abbr : list string :=
  ["Jan"; "Feb"; "Mar"; "Apr"; "May"; "Jun";
   "Jul"; "Aug"; "Sep"; "Oct"; "Nov"; "Dec"]%string.

Definition hour (t : instant) : Z := (t mod 86400) / 3600.
Definition minute (t : instant) : Z := (t mod 3600) / 60.
Definition second (t : instant) : Z := t mod 60.

(** [t.strftime("%d/%b/%Y:%H:%M:%S")], the stamp format of the access log. *)
Definition strftime_access (t : instant) : string :=
  let '(y, m, d) := civil_from_days (t / 86400) in
  (pad_int 2 d ++ "/" ++ nth (Z.to_nat (m - 1)) month_abbr "" ++ "/" ++ pad_int 4 y
     ++ ":" ++ pad_int 2 (hour t) ++ ":" ++ pad_int 2 (minute t)
     ++ ":" ++ pad_int 2 (second t))%string.

(** [str(t)] of a timezone-aware UTC datetime, as the report prints it. *)
Definition str (t : instant) : string :=
  let '(y, m, d) := civil_from_days (t / 86400) in
  (pad_int 4 y ++ "-" ++ pad_int 2 m ++ "-" ++ pad_int 2 d ++ " "
     ++ pad_int 2 (hour t) ++ ":" ++ pad_int 2 (minute t) ++ ":"
     ++ pad_int 2 (second t) ++ "+00:00")%string.

(** *** Reading a stamp back: [strptime(s, "%d/%b/%Y:%H:%M:%S")] *)

Definition digit_value (c : ascii) : option Z :=
  let n := Z.of_nat (nat_of_ascii c) in
  if (48 <=? n) && (n <=? 57) then Some (n - 48) else None.

Fixpoint digits_value (acc : Z) (s : string) : option Z :=
  match s with
  | EmptyString => Some acc
  | String c r =>
      match digit_value c with
      | Some d => digits_value (acc * 10 + d) r
      | None => None
      end
  end.

Definition number (s : string) : option Z :=
  match s with
  | EmptyString => None
  | _ => digits_value 0 s
  end.

Fixpoint month_index (name : string) (l : list string) (i : Z) : option Z :=
  match l with
  | [] => None
  | x :: r => if String.eqb x name then Some i else month_index name r (i + 1)
  end.

Definition strptime_access (s : string) : option instant :=
  if negb (Nat.eqb (String.length s) 20) then None else
  if negb (String.eqb (substring 2 1 s) "/" && String.eqb (substring 6 1 s) "/"
           && String.eqb (substring 11 1 s) ":" && String.eqb (substring 14 1 s) ":"
           && String.eqb (substring 17 1 s) ":") then None else
  match number (substring 0 2 s), month_index (substring 3 3 s) month_abbr 1,
        number (substring 7 4 s), number (substring 12 2 s),
        number (substring 15 2 s), number (substring 18 2 s) with
  | Some d, Some m, Some y, Some hh, Some mm, Some ss =>
      Some (days_from_civil y m d * 86400 + hh * 3600 + mm * 60 + ss)
  | _, _, _, _, _, _ => None
  end.

End Datetime.

Import Datetime.

(** 2025-01-31T23:50:00Z, used in examples. *)
Definition t_example : instant := 1738367400.

(** ** The remote [awk] programs

    [count_logs] and [fetch_logs_window] ship an [awk] program to the host:
    [{ t = substr($4, 2, n); if (t >= start && t <= end) print }].
    [t] is a string, so both comparisons are [awk] string comparisons:
    byte-wise lexicographic, a proper prefix being smaller. *)
Module Awk.

Definition is_blank (c : ascii) : bool :=
  let n := nat_of_ascii c in (Nat.eqb n 32 || Nat.eqb n 9 || Nat.eqb n 10)%bool.

(** Field splitting with the default separator: runs of blanks separate
    fields, leading and trailing blanks are dropped. *)
Fixpoint split_fields (cur : string) (s : string) : list string :=
  match s with
  | EmptyString => match cur with EmptyString => [] | _ => [cur] end
  | String c r =>
      if is_blank c
      then match cur with
           | EmptyString => split_fields EmptyString r
           | _ => cur :: split_fields EmptyString r
           end
      else split_fields (cur ++ String c EmptyString) r
  end.

(** [$i], empty when the record has fewer fields. *)
Definition field (i : nat) (line : string) : string :=
  nth (i - 1) (split_fields EmptyString line) EmptyString.

(** [substr(s, m, n)] for [m >= 1]: at most [n] characters from the
    [m]-th. *)
Definition substr (s : string) (m n : nat) : string := substring (m - 1) n s.

(** The text of the program, [n] being the length given to [substr]: 19
    in [count_logs], 20 in [fetch_logs_window]. *)
Definition program (n : nat) : string :=
  ("{ t = substr($4, 2, " ++ py_str_int (Z.of_nat n)
     ++ "); if (t >= start && t <= end) print }")%string.

(** What [program n] prints a line for. *)
Definition in_window (n : nat) (start_str end_str line : string) : bool :=
  let t := substr (field 4 line) 2 n in
  (String.leb start_str t && String.leb t end_str)%bool.

(** [awk ... file]: the lines printed. *)
Definition run (n : nat) (start_str end_str : string) (file : list string)
  : list string :=
  filter (in_window n start_str end_str) file.

End Awk.

(** The filter of [count_logs]: [substr($4, 2, 19)], piped into [wc -l]. *)
Definition count_logs_filter (start_time end_time : instant) (file : list string)
  : list string :=
  Awk.run 19 (strftime_access start_time) (strftime_access end_time) file.

Definition count_logs_on_file (start_time end_time : instant) (file : list string) : Z :=
  Z.of_nat (List.length (count_logs_filter start_time end_time file)).

(** The filter of [fetch_logs_window]: [substr($4, 2, 20)]. *)
Definition fetch_logs_filter (start_time end_time : instant) (file : list string)
  : list string :=
  Awk.run 20 (strftime_access start_time) (strftime_access end_time) file.

(** What the specification asks of either filter: the stamp of the line,
    read back as an instant, lies in the closed window. *)
Definition line_time (line : string) : option instant :=
  strptime_access (Awk.substr (Awk.field 4 line) 2 20).

Definition spec_in_window (start_time end_time : instant) (line : string) : bool :=
  match line_time line with
  | Some t => (start_time <=? t) && (t <=? end_time)
  | None => false
  end.

(** An access-log line in gunicorn's default format, stamped [t]. *)
Definition access_line (t : instant) : string :=
  ("127.0.0.1 - - [" ++ strftime_access t ++ " +0000] " ++ dq ++ "GET / HTTP/1.1"
     ++ dq ++ " 200 12")%string.

(** ** Python built-ins used on the command output *)
Module Py.

(** ASCII white space, as [str.strip] and [int] see it. *)
Definition is_space (c : ascii) : bool :=
  let n := nat_of_ascii c in
  (Nat.leb 9 n && Nat.leb n 13 || Nat.leb 28 n && Nat.leb n 32)%bool.

Fixpoint lstrip (s : string) : string :=
  match s with
  | EmptyString => EmptyString
  | String c r => if is_space c then lstrip r else s
  end.

Fixpoint rstrip (s : string) : string :=
  match s with
  | EmptyString => EmptyString
  | String c r =>
      match rstrip r with
      | EmptyString => if is_space c then EmptyString else String c EmptyString
      | r' => String c r'
      end
  end.

Definition strip (s : string) : string := rstrip (lstrip s).

(** Digits after the first one: a single underscore may sit between two
    digits. *)
Fixpoint int_digits (acc : Z) (s : string) : option Z :=
  match s with
  | EmptyString => Some acc
  | String c r =>
      match digit_value c with
      | Some d => int_digits (acc * 10 + d) r
      | None =>
          if Ascii.eqb c "_"
          then match r with
               | EmptyString => None
               | String c' r' =>
                   match digit_value c' with
                   | Some d => int_digits (acc * 10 + d) r'
                   | None => None
                   end
               end
          else None
      end
  end.

Definition int_unsigned (s : string) : option Z :=
  match s with
  | EmptyString => None
  | String c r =>
      match digit_value c with
      | Some d => int_digits d r
      | None => None
      end
  end.

(** The digit characters of a text; the sign and the underscores are not
    counted. *)
Fixpoint digit_count (s : string) : N :=
  match s with
  | EmptyString => 0%N
  | String c r =>
      ((match digit_value c with Some _ => 1 | None => 0 end) + digit_count r)%N
  end.

(** [int] refuses a decimal text of more than 4300 digit characters with
    [ValueError] (CPython 3.11 and later, and the security releases of 3.7
    to 3.10; the source does not change the limit). *)
Definition max_str_digits : N := 4300%N.


(** [int(s)] for an ASCII text; [None] is [ValueError]. *)
Definition int (s : string) : option Z :=
  match strip s with
  | EmptyString => None
  | String c r =>
      if (max_str_digits <? digit_count (String c r))%N then None
      else if Ascii.eqb c "-" then option_map Z.opp (int_unsigned r)
      else if Ascii.eqb c "+" then int_unsigned r
      else int_unsigned (String c r)
  end.

(** Truth value of a string: empty is false. *)
Definition truthy (s : string) : bool :=
  match s with EmptyString => false | _ => true end.

(** Truth value of a value that is a string or [None]. *)
Definition truthy_opt (o : option string) : bool :=
  match o with Some s => truthy s | None => false end.

(** ["sep".join(l)]. *)
Fixpoint join (sep : string) (l : list string) : string :=
  match l with
  | [] => EmptyString
  | [x] => x
  | x :: r => (x ++ sep ++ join sep r)%string
  end.

End Py.

(** ** Data of a cycle *)

(** A discovered site: [{"site_name": ..., "access_log_path": ...}]. *)
Record site := { site_name : string; access_log_path : string }.

(** The inner dict [{'before': b, 'spike': s, 'after': a}]. *)
Record counts := { before : Z; spike : Z; after : Z }.

Definition zero_counts : counts := {| before := 0; spike := 0; after := 0 |}.

(** [log_counts]: a dict from site name to [counts], in insertion order. *)
Definition log_counts_t := list (string * counts).

(** [d[k] = v]: an existing key keeps its place, a new key goes last. *)
Fixpoint dict_set (d : log_counts_t) (k : string) (v : counts) : log_counts_t :=
  match d with
  | [] => [(k, v)]
  | (k', v') :: r =>
      if String.eqb k' k then (k', v) :: r else (k', v') :: dict_set r k v
  end.

Fixpoint dict_get (d : log_counts_t) (k : string) : option counts :=
  match d with
  | [] => None
  | (k', v') :: r => if String.eqb k' k then Some v' else dict_get r k
  end.

(** [d[k][field] = n], written as an update of the inner dict of [k].  The
    source raises [KeyError] on a missing key; every use below is on a key
    the comprehension has inserted (lemma [count_window_keys]), and the
    model leaves the dict as it is there. *)
Fixpoint dict_update (d : log_counts_t) (k : string) (f : counts -> counts)
  : log_counts_t :=
  match d with
  | [] => []
  | (k', v') :: r =>
      if String.eqb k' k then (k', f v') :: r else (k', v') :: dict_update r k f
  end.

Definition keys (d : log_counts_t) : list string := map fst d.

(** The three cells of a site. *)
Inductive window_name := Before | Spike | After.

Definition set_cell (w : window_name) (n : Z) (c : counts) : counts :=
  match w with
  | Before => {| before := n; spike := spike c; after := after c |}
  | Spike => {| before := before c; spike := n; after := after c |}
  | After => {| before := before c; spike := spike c; after := n |}
  end.

Definition cell (w : window_name) (c : counts) : Z :=
  match w with
  | Before => before c
  | Spike => spike c
  | After => after c
  end.

(** ** The windows of [get_log_counts_for_sites] *)
Record spike_window := {
  pre_spike_start : instant;
  pre_spike_end : instant;
  spike_start : instant;
  spike_end : instant;
  post_spike_start : instant;
  post_spike_end : instant
}.

Definition define_windows (spike_time : instant) : spike_window :=
  {| pre_spike_start := spike_time - timedelta 10 0;
     pre_spike_end := spike_time - timedelta 0 1;
     spike_start := spike_time;
     spike_end := spike_time + timedelta 1 0 - timedelta 0 1;
     post_spike_start := spike_time + timedelta 1 0;
     post_spike_end := spike_time + timedelta 11 0 |}.

Definition window_bounds (ws : spike_window) (w : window_name) : instant * instant :=
  match w with
  | Before => (pre_spike_start ws, pre_spike_end ws)
  | Spike => (spike_start ws, spike_end ws)
  | After => (post_spike_start ws, post_spike_end ws)
  end.

(** Membership of an instant in a closed window. *)
Definition within (bounds : instant * instant) (t : instant) : Prop :=
  fst bounds <= t <= snd bounds.

(** ** The SSM collaborator and the trace of a cycle *)

(** Outcome of [send_command] followed by [get_command_invocation]. *)
Inductive ssm_output :=
| SsmRaised (e : string)
    (** one of the two calls raised; [e] is the text of the exception *)
| SsmInvocation (stdout : option string)
    (** the invocation, with its ["StandardOutputContent"] when present *).

(** The answer to the [n]-th command of the cycle, given its text. *)
Definition ssm_oracle := nat -> string -> ssm_output.

(** Computations that send commands: the state is the list of the commands
    sent so far, oldest first. *)
Definition M (A : Type) : Type := list string -> A * list string.

Definition ret {A : Type} (a : A) : M A := fun tr => (a, tr).

Definition bind {A B : Type} (m : M A) (k : A -> M B) : M B :=
  fun tr => let '(a, tr') := m tr in k a tr'.

Notation "x <- m ;; k" := (bind m (fun x => k))
  (at level 100, m at next level, right associativity).

(** [for x in l: s = body(s, x)]. *)
Fixpoint for_each {A S : Type} (l : list A) (body : S -> A -> M S) (s : S) : M S :=
  match l with
  | [] => ret s
  | x :: r => s' <- body s x ;; for_each r body s'
  end.

Definition ps_cmd : string := "ps aux | grep gunicorn | grep -v 'grep'".

Definition count_cmd (start_str end_str path : string) : string :=
  ("awk -v start='" ++ start_str ++ "' -v end='" ++ end_str
     ++ "' '" ++ Awk.program 19 ++ "' " ++ path ++ " | wc -l")%string.

Definition fetch_cmd (start_str end_str log_path : string) : string :=
  ("awk -v start='" ++ start_str ++ "' -v end='" ++ end_str
     ++ "' '" ++ Awk.program 20 ++ "' " ++ log_path
     ++ " || echo 'No logs found in the window.'")%string.

Definition no_logs_found : string := "No logs found in the window.".

(** [int(output.get("StandardOutputContent", "0").strip() or 0)] under the
    [try] of [count_logs]: any exception gives 0. *)
Definition count_of_output (out : ssm_output) : Z :=
  match out with
  | SsmRaised _ => 0
  | SsmInvocation stdout =>
      let s := Py.strip (match stdout with Some s => s | None => "0"%string end) in
      if Py.truthy s
      then match Py.int s with Some n => n | None => 0 end
      else 0
  end.




(** The body of the loop over the process lines, for a line that matched:
    a relative log path is put under the log directory of the site. *)
Definition site_of_match (m : string * string) : site :=
  let '(name, access_log) := m in
  {| site_name := name;
     access_log_path :=
       if String.prefix "/" access_log then access_log
       else ("/var/www/" ++ name ++ "/logs/" ++ access_log)%string |}.

Section Remote.

Variable ssm : ssm_oracle.

(** The regex groups [(site_name, access_log)] of the process lines that
    [log_path_regex] matches, in listing order; empty when the listing
    command failed or raised.  The polling loop on the listing command is
    taken at its exit. *)
Variable gunicorn_matches : list (string * string).

Definition send_command (cmd : string) : M ssm_output :=
  fun tr => (ssm (List.length tr) cmd, tr ++ [cmd]).

Definition get_all_gunicorn_sites : M (list site) :=
  _ <- send_command ps_cmd ;;
  ret (map site_of_match gunicorn_matches).

Definition count_logs (s : site) (start_time end_time : instant) : M Z :=
  let start_str := strftime_access start_time in
  let end_str := strftime_access end_time in
  out <- send_command (count_cmd start_str end_str (access_log_path s)) ;;
  ret (count_of_output out).

(** One of the three [for site in sites] loops. *)
Definition count_window (ws : spike_window) (w : window_name) (sites : list site)
  (log_counts : log_counts_t) : M log_counts_t :=
  for_each sites
    (fun lc s =>
       n <- count_logs s (fst (window_bounds ws w)) (snd (window_bounds ws w)) ;;
       ret (dict_update lc (site_name s) (set_cell w n)))
    log_counts.

Definition get_log_counts_for_sites (sites : list site) (spike_time : instant)
  : M log_counts_t :=
  let log_counts :=
    fold_left (fun d s => dict_set d (site_name s) zero_counts) sites [] in
  let ws := define_windows spike_time in
  lc <- count_window ws Before sites log_counts ;;
  lc <- count_window ws Spike sites lc ;;
  lc <- count_window ws After sites lc ;;
  ret lc.

Definition fetch_logs_window (log_path : string) (start_time end_time : instant)
  : M string :=
  let start_str := strftime_access start_time in
  let end_str := strftime_access end_time in
  out <- send_command (fetch_cmd start_str end_str log_path) ;;
  ret (match out with
       | SsmRaised e => ("Error fetching logs: " ++ e)%string
       | SsmInvocation stdout =>
           let logs := Py.strip (match stdout with Some s => s | None => EmptyString end) in
           if Py.truthy logs then logs else no_logs_found
       end).

End Remote.

(** ** Spike attribution (the loop over [log_counts.items()]) *)

Definition site_spike (c : counts) : Z :=
  let diff_before_spike := Z.abs (spike c - before c) in
  let diff_spike_after := Z.abs (after c - spike c) in
  let diff_before_after := Z.abs (after c - before c) in
  Z.max (Z.max diff_before_spike diff_spike_after) diff_before_after.

Definition metric_line (name : string) (c : counts) : string :=
  ("  - Website: " ++ name ++ ", Before Spike: " ++ py_str_int (before c)
     ++ ", At Spike: " ++ py_str_int (spike c) ++ ", "
     ++ "After Spike: " ++ py_str_int (after c)
     ++ ", Spike Magnitude: " ++ py_str_int (site_spike c))%string.

Record attribution := {
  Spike_site : option string;
  max_spike : Z;
  report_metrics : list string
}.

Definition attribution_init : attribution :=
  {| Spike_site := None; max_spike := 0; report_metrics := [] |}.

Definition attribution_step (a : attribution) (item : string * counts) : attribution :=
  let '(name, c) := item in
  let a' :=
    if site_spike c >? max_spike a
    then {| Spike_site := Some name; max_spike := site_spike c;
            report_metrics := report_metrics a |}
    else a in
  {| Spike_site := Spike_site a'; max_spike := max_spike a';
     report_metrics := report_metrics a' ++ [metric_line name c] |}.

Definition attribute (log_counts : log_counts_t) : attribution :=
  fold_left attribution_step log_counts attribution_init.

(** [next((s['access_log_path'] for s in all_sites
          if s['site_name'] == Spike_site), None)]. *)
Definition lookup_log_path (all_sites : list site) (Spike_site : option string)
  : option string :=
  match Spike_site with
  | None => None
  | Some name =>
      option_map access_log_path
        (find (fun s => String.eqb (site_name s) name) all_sites)
  end.

(** ** One monitoring cycle *)
Section Cycle.

(** A CPU value (a Python float), its [>] and its [:.2f] rendering. *)
Variable V : Type.
Variable gt : V -> V -> bool.
Variable fmt_2f : V -> string.

Variable ssm : ssm_oracle.
Variable gunicorn_matches : list (string * string).

(** A datapoint [{"Timestamp": ..., "CPU": ...}]. *)
Record point := { Timestamp : instant; CPU : V }.

(** [max(first :: rest, key=lambda x: x["CPU"])]: the running maximum is
    replaced only by a strictly greater key. *)
Fixpoint max_from (best : point) (rest : list point) : point :=
  match rest with
  | [] => best
  | x :: r => if gt (CPU x) (CPU best) then max_from x r else max_from best r
  end.

(** The spike detector; [None] on the empty series, which the cycle never
    passes to [max]. *)
Definition detect_spike (cpu_per_minute : list point) : option point :=
  match cpu_per_minute with
  | [] => None
  | first :: rest => Some (max_from first rest)
  end.

Definition could_not_identify : string :=
  (nl ++ "Could not identify a clear Spike website from log data." ++ nl)%string.

Definition report_head (status : string * string * string)
  (cpu_per_minute : list point) (spike : point) (a : attribution) : string :=
  let '(state, system_status, instance_status) := status in
  let report :=
    (nl ++ "EC2 Status: " ++ state ++ nl
        ++ "System Status: " ++ system_status ++ nl
        ++ "Instance Status: " ++ instance_status ++ nl
        ++ "CPU Utilization Per Minute (Last Hour):" ++ nl)%string in
  let report :=
    fold_left
      (fun r dp =>
         (r ++ Datetime.str (Timestamp dp) ++ " - " ++ fmt_2f (CPU dp) ++ "% CPU" ++ nl)%string)
      cpu_per_minute report in
  let report :=
    (report ++ nl ++ "🚨 Highest CPU spike detected at "
       ++ Datetime.str (Timestamp spike) ++ " with " ++ fmt_2f (CPU spike)
       ++ "% utilization." ++ nl)%string in
  (report ++ nl ++ "📊 Access log counts analysis for the spike window:" ++ nl
     ++ Py.join nl (report_metrics a))%string.

(** From the attribution loop to the end of the report. *)
Definition attribute_and_report (status : string * string * string)
  (cpu_per_minute : list point) (spike : point)
  (pre_spike_start_window post_spike_end_window : instant)
  (all_sites : list site) (log_counts : log_counts_t) : M string :=
  let a := attribute log_counts in
  let Spike_log_path := lookup_log_path all_sites (Spike_site a) in
  let report := report_head status cpu_per_minute spike a in
  match Spike_site a, Spike_log_path with
  | Some name, Some path =>
      if (Py.truthy name && Py.truthy path)%bool
      then
        let report :=
          (report ++ nl
             ++ "🕵️‍♂️ Website with the most significant spike in requests: "
             ++ name ++ " with an increase of " ++ py_str_int (max_spike a)
             ++ " requests." ++ nl)%string in
        logs_from_Spike <-
          fetch_logs_window ssm path pre_spike_start_window post_spike_end_window ;;
        ret (report ++ nl ++ "📜 Detailed logs for " ++ name
               ++ " during the spike:" ++ nl ++ logs_from_Spike ++ nl)%string
      else ret (report ++ could_not_identify)%string
  | _, _ => ret (report ++ could_not_identify)%string
  end.

(** The body of the monitoring loop up to the report sent to the agent.
    [status] is the result of [get_ec2_status], [cpu_per_minute] that of
    [get_cpu_per_minute]. *)
Definition cycle (status : string * string * string) (cpu_per_minute : list point)
  : M string :=
  match cpu_per_minute with
  | [] => ret EmptyString
  | first :: rest =>
      let spike := max_from first rest in
      let spike_time := Timestamp spike in
      let pre_spike_start_window := spike_time - timedelta 10 0 in
      let pre_spike_end_window := spike_time in
      let post_spike_start_window := spike_time in
      let post_spike_end_window := spike_time + timedelta 10 0 in
      all_sites <- get_all_gunicorn_sites ssm gunicorn_matches ;;
      match all_sites with
      | [] => ret EmptyString
      | _ :: _ =>
          log_counts <- get_log_counts_for_sites ssm all_sites spike_time ;;
          attribute_and_report status cpu_per_minute spike
            pre_spike_start_window post_spike_end_window all_sites log_counts
      end
  end.

(** A cycle from an empty trace: the report and the commands sent. *)
Definition run_cycle (status : string * string * string)
  (cpu_per_minute : list point) : string * list string :=
  cycle status cpu_per_minute [].

End Cycle.

Arguments Timestamp {V} _.
Arguments CPU {V} _.

(** ** What a cell ends up holding

    The loops of [get_log_counts_for_sites] send one command per site and
    window; [idx] is the number of commands sent before the loop of [w]
    starts. *)

Definition window_index (w : window_name) : nat :=
  match w with Before => 0%nat | Spike => 1%nat | After => 2%nat end.

(** The command of [count_logs] for a site and a window. *)
Definition count_cmd_of (ws : spike_window) (w : window_name) (s : site) : string :=
  count_cmd (strftime_access (fst (window_bounds ws w)))
            (strftime_access (snd (window_bounds ws w))) (access_log_path s).

(** The count that the [idx]-th command yields for a site and a window. *)
Definition count_at (ssm : ssm_oracle) (ws : spike_window) (w : window_name)
  (s : site) (idx : nat) : Z :=
  count_of_output (ssm idx (count_cmd_of ws w s)).

(** The value the loop of [w] leaves in the cell of [name]: the count of the
    last site of that name, if there is one. *)
Fixpoint window_value (ssm : ssm_oracle) (ws : spike_window) (w : window_name)
  (sites : list site) (idx : nat) (name : string) : option Z :=
  match sites with
  | [] => None
  | s :: r =>
      match window_value ssm ws w r (S idx) name with
      | Some v => Some v
      | None =>
          if String.eqb (site_name s) name then Some (count_at ssm ws w s idx) else None
      end
  end.

Definition apply_window (w : window_name) (v : option Z) (c : counts) : counts :=
  match v with
  | Some n => set_cell w n c
  | None => c
  end.

(** The dict of the comprehension at the head of
    [get_log_counts_for_sites]. *)
Definition initial_counts (sites : list site) : log_counts_t :=
  fold_left (fun d s => dict_set d (site_name s) zero_counts) sites [].

(** ** The end-to-end scenario of the specification

    Series (t0, 10), (t1, 85), (t2, 20) with t1 = 2025-02-01T00:00:00Z; two
    sites X and Y; counts X = (3, 40, 4), Y = (2, 3, 2).  CPU values are
    integers here. *)

Definition t1 : instant := 1738368000.

Definition scenario_cpu : list (point Z) :=
  [ {| Timestamp := t1 - 60; CPU := 10 |};
    {| Timestamp := t1; CPU := 85 |};
    {| Timestamp := t1 + 60; CPU := 20 |} ].

Definition scenario_fmt (v : Z) : string := (py_str_int v ++ ".00")%string.

Definition scenario_status : string * string * string :=
  ("running", "ok", "ok")%string.

Definition scenario_matches : list (string * string) :=
  [("X", "/logpath1"); ("Y", "/logpath2")]%string.

(** The outputs of the six count commands, in the order they are sent:
    before X, before Y, spike X, spike Y, after X, after Y. *)
Definition scenario_outputs : list string :=
  ["3"; "2"; "40"; "3"; "4"; "2"]%string.

Definition scenario_ssm : ssm_oracle :=
  fun n _ =>
    match n with
    | O => SsmInvocation (Some EmptyString)
    | S m =>
        if Nat.ltb m 6
        then SsmInvocation (Some (nth m scenario_outputs EmptyString ++ nl)%string)
        else SsmInvocation (Some (access_line t1 ++ nl)%string)
    end.



(** [needle in hay]. *)
Fixpoint contains (needle hay : string) : bool :=
  if String.prefix needle hay then true
  else match hay with
       | EmptyString => false
       | String _ r => contains needle r
       end.

(** Counts with no difference between the windows. *)
Definition flat_counts : log_counts_t :=
  [("A"%string, {| before := 10; spike := 10; after := 10 |});
   ("B"%string, {| before := 7; spike := 7; after := 7 |})].

(** What the loop knows after the items [done]: the running maximum bounds
    every magnitude seen, and the running site is the first one that
    reached it, if any magnitude was positive. *)
Definition attribution_inv (done : log_counts_t) (a : attribution) : Prop :=
  (forall name c, In (name, c) done -> site_spike c <= max_spike a) /\
  ((max_spike a = 0 /\ Spike_site a = None) \/
   (0 < max_spike a /\
    exists l1 name c l2,
      done = l1 ++ (name, c) :: l2 /\
      Spike_site a = Some name /\
      site_spike c = max_spike a /\
      forall name' c', In (name', c') l1 -> site_spike c' < max_spike a)).

(** The example of the specification. *)
Definition counts_A_B : log_counts_t :=
  [("A"%string, {| before := 10; spike := 10; after := 10 |});
   ("B"%string, {| before := 5; spike := 50; after := 6 |})].

(** The series of the end-to-end scenario, with a tie added: 10, 85, 85. *)
Definition cpu_tied : list (point Z) :=
  [ {| Timestamp := t_example; CPU := 10 |};
    {| Timestamp := t_example + 60; CPU := 85 |};
    {| Timestamp := t_example + 120; CPU := 85 |} ].

(** ** Subscripts that can raise

    [log_counts[name][field] = n] raises [KeyError] when [name] is not a key.
    The checked forms of the update and of the loops return [None]
    there. *)

Fixpoint dict_update_checked (d : log_counts_t) (k : string) (f : counts -> counts)
  : option log_counts_t :=
  match d with
  | [] => None
  | (k', v') :: r =>
      if String.eqb k' k then Some ((k', f v') :: r)
      else option_map (cons (k', v')) (dict_update_checked r k f)
  end.

Fixpoint count_window_checked (ssm : ssm_oracle) (ws : spike_window) (w : window_name)
  (sites : list site) (lc : log_counts_t) (tr : list string)
  : option (log_counts_t * list string) :=
  match sites with
  | [] => Some (lc, tr)
  | s :: r =>
      let '(n, tr') :=
        count_logs ssm s (fst (window_bounds ws w)) (snd (window_bounds ws w)) tr in
      match dict_update_checked lc (site_name s) (set_cell w n) with
      | None => None
      | Some lc' => count_window_checked ssm ws w r lc' tr'
      end
  end.

Definition get_log_counts_for_sites_checked (ssm : ssm_oracle) (sites : list site)
  (spike_time : instant) (tr : list string) : option (log_counts_t * list string) :=
  let log_counts :=
    fold_left (fun d s => dict_set d (site_name s) zero_counts) sites [] in
  let ws := define_windows spike_time in
  match count_window_checked ssm ws Before sites log_counts tr with
  | None => None
  | Some (lc1, tr1) =>
      match count_window_checked ssm ws Spike sites lc1 tr1 with
      | None => None
      | Some (lc2, tr2) => count_window_checked ssm ws After sites lc2 tr2
      end
  end.

(** The elements of a list in the order of their first appearance. *)
Fixpoint first_occurrences (l : list string) : list string :=
  match l with
  | [] => []
  | x :: r => x :: filter (fun y => negb (String.eqb x y)) (first_occurrences r)
  end.

(** The three kinds of command a cycle sends. *)
Definition engine_cmd (cmd : string) : Prop :=
  cmd = ps_cmd \/
  (exists start_str end_str path, cmd = count_cmd start_str end_str path) \/
  (exists start_str end_str path, cmd = fetch_cmd start_str end_str path).

(** The count commands of [get_log_counts_for_sites], in the order sent. *)
Definition count_cmds (sites : list site) (spike_time : instant) : list string :=
  let ws := define_windows spike_time in
  map (count_cmd_of ws Before) sites
    ++ map (count_cmd_of ws Spike) sites
    ++ map (count_cmd_of ws After) sites.

(** A string of white space only (the empty string included). *)
Fixpoint all_space (s : string) : bool :=
  match s with
  | EmptyString => true
  | String c r => (Py.is_space c && all_space r)%bool
  end.

(** A string without white space. *)
Fixpoint no_space (s : string) : bool :=
  match s with
  | EmptyString => true
  | String c r => (negb (Py.is_space c) && no_space r)%bool
  end.

(** ** The status and metric collaborators

    The answer of a boto3 call: it raised, or it returned. *)
Inductive api_answer (A : Type) :=
| ApiRaised
| ApiReturned (a : A).

Arguments ApiRaised {A}.
Arguments ApiReturned {A} _.

Definition unknown : string := "unknown".

(** [get_ec2_status].  [describe_instances] is the answer of the first
    call, as the state names [r["Instances"][i]["State"]["Name"]] of each
    reservation [r]; [describe_instance_status] is the answer of the second
    call, as the pairs of ["SystemStatus"]["Status"] and
    ["InstanceStatus"]["Status"] of the entries of ["InstanceStatuses"].
    A subscript [[0]] on an empty list raises, and every exception is caught
    by the one handler; the creation of the client, outside the [try], is
    taken to succeed. *)
Definition get_ec2_status
  (describe_instances : api_answer (list (list string)))
  (describe_instance_status : api_answer (list (string * string)))
  : string * string * string :=
  match describe_instances with
  | ApiRaised => (unknown, unknown, unknown)
  | ApiReturned [] => (unknown, unknown, unknown)
  | ApiReturned ([] :: _) => (unknown, unknown, unknown)
  | ApiReturned ((state :: _) :: _) =>
      match describe_instance_status with
      | ApiRaised => (unknown, unknown, unknown)
      | ApiReturned [] => (state, unknown, unknown)
      | ApiReturned ((system_status, instance_status) :: _) =>
          (state, system_status, instance_status)
      end
  end.

Section Metrics.

Variable V : Type.

(** A CloudWatch datapoint [{"Timestamp": ..., "Average": ...}]. *)
Record datapoint := { dp_Timestamp : instant; Average : V }.

(** [sorted(l, key=lambda x: x["Timestamp"])]: a stable sort that compares
    keys with [<].  Each element goes behind the elements already placed
    whose key is not greater. *)
Fixpoint insert_by_timestamp (x : datapoint) (l : list datapoint) : list datapoint :=
  match l with
  | [] => [x]
  | y :: r =>
      if dp_Timestamp x <? dp_Timestamp y then x :: y :: r
      else y :: insert_by_timestamp x r
  end.

Definition sorted_by_timestamp (l : list datapoint) : list datapoint :=
  fold_left (fun acc x => insert_by_timestamp x acc) l [].

(** [{"Timestamp": dp["Timestamp"], "CPU": dp["Average"]}]. *)
Definition point_of_datapoint (dp : datapoint) : point V :=
  {| Timestamp := dp_Timestamp dp; CPU := Average dp |}.

(** Order of the timestamps, on datapoints and on points. *)
Definition dp_earlier (a b : datapoint) : Prop := dp_Timestamp a <= dp_Timestamp b.

Definition earlier (p q : point V) : Prop := Timestamp p <= Timestamp q.

(** [get_cpu_per_minute], given the answer of [get_metric_statistics] as
    the value under ["Datapoints"], if the key is there. *)
Definition get_cpu_per_minute (resp : api_answer (option (list datapoint)))
  : list (point V) :=
  match resp with
  | ApiRaised => []
  | ApiReturned datapoints =>
      let points :=
        sorted_by_timestamp (match datapoints with Some l => l | None => [] end) in
      map point_of_datapoint points
  end.

End Metrics.

Arguments dp_Timestamp {V} _.
Arguments Average {V} _.

(** Datapoints as CloudWatch may return them: not in time order, and two of
    them for the same minute. *)
Definition unsorted_datapoints : list (datapoint Z) :=
  [ {| dp_Timestamp := t1 + 60; Average := 85 |};
    {| dp_Timestamp := t1 - 60; Average := 10 |};
    {| dp_Timestamp := t1; Average := 85 |};
    {| dp_Timestamp := t1; Average := 20 |} ].

(** ** The stamp, piece by piece *)

(** [f] holds of 0, 1, ..., n - 1. *)
Definition all_below (f : Z -> bool) (n : N) : bool :=
  snd (N.iter n (fun st : Z * bool => (fst st + 1, (snd st && f (fst st))%bool))
         (0, true)).

(** A number below 100 as two digits. *)
Definition two_digits (n : Z) : string :=
  String (digit_char (n / 10)) (String (digit_char (n mod 10)) EmptyString).

(** The time of day in a stamp, for a second of the day. *)
Definition tod_str (s : Z) : string :=
  (pad_int 2 (s / 3600) ++ ":" ++ pad_int 2 (s mod 3600 / 60)
     ++ ":" ++ pad_int 2 (s mod 60))%string.

(** The date in a stamp, for a day number. *)
Definition date_str (days : Z) : string :=
  let '(y, m, d) := civil_from_days days in
  (pad_int 2 d ++ "/" ++ nth (Z.to_nat (m - 1)) month_abbr "" ++ "/" ++ pad_int 4 y)%string.

(** Instants from 1970 to past the year 9500, where the year has four
    digits. *)
Definition four_digit_year (t : instant) : Prop := 0 <= t < 240000000000.

(** The example of the specification with B listed before A. *)
Definition counts_B_A : log_counts_t :=
  [("B"%string, {| before := 5; spike := 50; after := 6 |});
   ("A"%string, {| before := 10; spike := 10; after := 10 |})].


(** * Properties *)

(** ** The embedding on examples *)

Example strftime_example :
  strftime_access t_example = "31/Jan/2025:23:50:00"%string.
Proof. reflexivity. Qed.

Example str_example : Datetime.str t_example = "2025-01-31 23:50:00+00:00"%string.
Proof. reflexivity. Qed.

Example strptime_example :
  strptime_access "31/Jan/2025:23:50:00" = Some t_example.
Proof. reflexivity. Qed.

Example py_str_int_examples :
  py_str_int 0 = "0"%string /\ py_str_int 45 = "45"%string /\
  py_str_int (-7) = "-7"%string /\ py_str_int 1000 = "1000"%string.
Proof. repeat split; reflexivity. Qed.

Example py_int_examples :
  Py.int "12" = Some 12 /\ Py.int (" 7" ++ nl) = Some 7 /\ Py.int "-3" = Some (-3) /\
  Py.int "1_000" = Some 1000 /\ Py.int "1__0" = None /\ Py.int "12a" = None /\
  Py.int "" = None /\ Py.int "awk: cannot open" = None.
Proof. repeat split; reflexivity. Qed.

Example count_cmd_example :
  count_cmd "01/Feb/2025:00:00:00" "01/Feb/2025:00:00:59" "/logpath1" =
  "awk -v start='01/Feb/2025:00:00:00' -v end='01/Feb/2025:00:00:59' '{ t = substr($4, 2, 19); if (t >= start && t <= end) print }' /logpath1 | wc -l"%string.
Proof. reflexivity. Qed.

Example fetch_cmd_example :
  fetch_cmd "31/Jan/2025:23:50:00" "01/Feb/2025:00:10:00" "/logpath1" =
  "awk -v start='31/Jan/2025:23:50:00' -v end='01/Feb/2025:00:10:00' '{ t = substr($4, 2, 20); if (t >= start && t <= end) print }' /logpath1 || echo 'No logs found in the window.'"%string.
Proof. reflexivity. Qed.

(** ** Strings *)

Lemma string_app_assoc (a b c : string) :
  ((a ++ b) ++ c)%string = (a ++ b ++ c)%string.
Proof. induction a as [| x a IH]; cbn; [reflexivity | rewrite IH; reflexivity]. Qed.

Lemma string_app_nil_r (a : string) : (a ++ "")%string = a.
Proof. induction a as [| x a IH]; cbn; [reflexivity | rewrite IH; reflexivity]. Qed.

(** ** Magnitude of a site *)

Lemma site_spike_nonneg (c : counts) : 0 <= site_spike c.
Proof. unfold site_spike. lia. Qed.

Lemma site_spike_upper (c : counts) :
  Z.abs (spike c - before c) <= site_spike c /\
  Z.abs (after c - spike c) <= site_spike c /\
  Z.abs (after c - before c) <= site_spike c.
Proof. unfold site_spike. lia. Qed.

Lemma site_spike_attained (c : counts) :
  site_spike c = Z.abs (spike c - before c) \/
  site_spike c = Z.abs (after c - spike c) \/
  site_spike c = Z.abs (after c - before c).
Proof. unfold site_spike. lia. Qed.

Lemma site_spike_flat (c : counts) :
  before c = spike c -> spike c = after c -> site_spike c = 0.
Proof. unfold site_spike. lia. Qed.

(** ** The attribution loop *)

Lemma attribution_step_inv (done : log_counts_t) (a : attribution)
  (item : string * counts) :
  attribution_inv done a -> attribution_inv (done ++ [item]) (attribution_step a item).
Proof.
  destruct item as [name c]. intros [Hmax Hsite].
  unfold attribution_step, attribution_inv.
  destruct (site_spike c >? max_spike a) eqn:Hgt; cbn [Spike_site max_spike].
  - apply Z.gtb_lt in Hgt. split.
    + intros n' c' Hin. apply in_app_or in Hin as [Hin | [Heq | []]].
      * specialize (Hmax _ _ Hin). lia.
      * inversion Heq; subst. lia.
    + right. split.
      * destruct Hsite as [[H0 _] | [Hpos _]]; lia.
      * exists done, name, c, []. repeat split; auto.
        intros n' c' Hin. specialize (Hmax _ _ Hin). lia.
  - assert (Hle : site_spike c <= max_spike a)
      by (destruct (Z.gtb_spec (site_spike c) (max_spike a)); [discriminate | lia]).
    split.
    + intros n' c' Hin. apply in_app_or in Hin as [Hin | [Heq | []]].
      * exact (Hmax _ _ Hin).
      * inversion Heq; subst. exact Hle.
    + destruct Hsite as [H0 | [Hpos (l1 & n0 & c0 & l2 & Hd & Hs & Hm & Hfirst)]].
      * left. exact H0.
      * right. split; [exact Hpos |].
        exists l1, n0, c0, (l2 ++ [(name, c)]). repeat split; auto.
        rewrite Hd, <- app_assoc. reflexivity.
Qed.

Lemma attribution_fold_inv (l done : log_counts_t) (a : attribution) :
  attribution_inv done a ->
  attribution_inv (done ++ l) (fold_left attribution_step l a).
Proof.
  revert done a. induction l as [| item l IH]; intros done a Hinv; cbn [fold_left].
  - rewrite app_nil_r. exact Hinv.
  - replace (done ++ item :: l) with ((done ++ [item]) ++ l)
      by (rewrite <- app_assoc; reflexivity).
    apply IH, attribution_step_inv, Hinv.
Qed.

Lemma attribute_inv (log_counts : log_counts_t) :
  attribution_inv log_counts (attribute log_counts).
Proof.
  apply (attribution_fold_inv log_counts [] attribution_init).
  split; [intros ? ? [] | left; split; reflexivity].
Qed.

Lemma attribute_site_is_key (log_counts : log_counts_t) (name : string) :
  Spike_site (attribute log_counts) = Some name -> In name (keys log_counts).
Proof.
  intros Hs. destruct (attribute_inv log_counts) as [_ [[_ Hnone] | [_ H]]].
  - congruence.
  - destruct H as (l1 & n0 & c0 & l2 & Hd & Hsome & _).
    assert (n0 = name) by congruence. subst n0.
    unfold keys. rewrite Hd, map_app. apply in_or_app. right. left. reflexivity.
Qed.

(** ** The spike detector *)
Section SpikeDetector.

Variable V : Type.

(** [gt] is Python's [>] and [le] its [<=] on the CPU values.  On floats
    other than NaN they are complementary, and [<=] is total and
    transitive. *)
Variables gt le : V -> V -> bool.
Hypothesis gt_not_le : forall a b, gt a b = negb (le a b).
Hypothesis le_total : forall a b, le a b = true \/ le b a = true.
Hypothesis le_trans : forall a b c, le a b = true -> le b c = true -> le a c = true.

Lemma gt_le_weak (a b : V) : gt a b = true -> le b a = true.
Proof.
  rewrite gt_not_le. intros H. destruct (le_total a b) as [Hab | Hba]; [| exact Hba].
  rewrite Hab in H. discriminate.
Qed.

Lemma le_gt_trans (a b c : V) : le a b = true -> gt c b = true -> gt c a = true.
Proof.
  rewrite !gt_not_le. intros Hab Hcb.
  destruct (le c a) eqn:Hca; [| reflexivity].
  rewrite (le_trans _ _ _ Hca Hab) in Hcb. discriminate.
Qed.

(** The running maximum ends on an element of the list with everything
    before it strictly smaller and everything after it no greater. *)
Lemma max_from_split (rest : list (point V)) (best : point V) :
  exists l1 l2,
    best :: rest = l1 ++ max_from V gt best rest :: l2 /\
    (forall q, In q l1 -> gt (CPU (max_from V gt best rest)) (CPU q) = true) /\
    (forall q, In q l2 -> le (CPU q) (CPU (max_from V gt best rest)) = true).
Proof.
  revert best. induction rest as [| x r IH]; intros best; cbn [max_from].
  - exists [], []. repeat split; intros q [].
  - destruct (gt (CPU x) (CPU best)) eqn:Hx.
    + destruct (IH x) as (l1 & l2 & Heq & Hbefore & Hafter).
      remember (max_from V gt x r) as m eqn:Em.
      assert (Hxm : le (CPU x) (CPU m) = true).
      { destruct l1 as [| y l1'].
        - cbn [app] in Heq. injection Heq as Hm _. rewrite <- Hm.
          destruct (le_total (CPU x) (CPU x)); assumption.
        - cbn [app] in Heq. injection Heq as Hy _. subst y.
          apply gt_le_weak, Hbefore. left. reflexivity. }
      exists (best :: l1), l2. repeat split.
      * cbn. rewrite Heq. reflexivity.
      * intros q [Hq | Hq]; [subst q | auto].
        rewrite gt_not_le. destruct (le (CPU m) (CPU best)) eqn:Hmb; [| reflexivity].
        rewrite gt_not_le, (le_trans _ _ _ Hxm Hmb) in Hx. discriminate.
      * exact Hafter.
    + assert (Hxb : le (CPU x) (CPU best) = true).
      { rewrite gt_not_le in Hx. destruct (le (CPU x) (CPU best)); [reflexivity | discriminate]. }
      destruct (IH best) as (l1 & l2 & Heq & Hbefore & Hafter).
      remember (max_from V gt best r) as m eqn:Em.
      destruct l1 as [| y l1'].
      * cbn [app] in Heq. injection Heq as Hm Hr. exists [], (x :: l2). repeat split.
        -- cbn. rewrite <- Hm, Hr. reflexivity.
        -- intros q [].
        -- intros q [Hq | Hq]; [subst q | auto]. rewrite <- Hm. exact Hxb.
      * cbn [app] in Heq. injection Heq as Hy Hr. subst y.
        exists (best :: x :: l1'), l2. repeat split.
        -- cbn. rewrite Hr. reflexivity.
        -- intros q [Hq | [Hq | Hq]].
           ++ subst q. apply Hbefore. left. reflexivity.
           ++ subst q. apply (le_gt_trans _ (CPU best)); [exact Hxb |].
              apply Hbefore. left. reflexivity.
           ++ apply Hbefore. right. exact Hq.
        -- exact Hafter.
Qed.

(** C2. Spike detector: on a non-empty series the detector returns a point
    of the series whose value is at least the value of every point, and
    every point before it in the series is strictly smaller: among the
    points of maximal value it is the first. *)
Theorem C2_spike_is_first_maximum (cpu_per_minute : list (point V)) :
  cpu_per_minute <> [] ->
  exists l1 spike l2,
    detect_spike V gt cpu_per_minute = Some spike /\
    cpu_per_minute = l1 ++ spike :: l2 /\
    (forall q, In q cpu_per_minute -> le (CPU q) (CPU spike) = true) /\
    (forall q, In q l1 -> gt (CPU spike) (CPU q) = true).
Proof.
  destruct cpu_per_minute as [| first rest]; [congruence | intros _].
  destruct (max_from_split rest first) as (l1 & l2 & Heq & Hbefore & Hafter).
  exists l1, (max_from V gt first rest), l2. repeat split; auto.
  intros q Hq. rewrite Heq in Hq. apply in_app_or in Hq as [Hq | [Hq | Hq]].
  - apply gt_le_weak, Hbefore, Hq.
  - subst q. destruct (le_total (CPU (max_from V gt first rest))
                                (CPU (max_from V gt first rest))); assumption.
  - apply Hafter, Hq.
Qed.

End SpikeDetector.

Example detect_spike_tied :
  detect_spike Z Z.gtb cpu_tied = Some {| Timestamp := t_example + 60; CPU := 85 |}.
Proof. reflexivity. Qed.

(** C2 at the tied series, with integer CPU values. *)
Lemma C2_spike_witness :
  cpu_tied <> [] /\
  exists l1 spike l2,
    detect_spike Z Z.gtb cpu_tied = Some spike /\
    cpu_tied = l1 ++ spike :: l2 /\
    (forall q, In q cpu_tied -> Z.leb (CPU q) (CPU spike) = true) /\
    (forall q, In q l1 -> Z.gtb (CPU spike) (CPU q) = true).
Proof.
  split; [discriminate |].
  apply (C2_spike_is_first_maximum Z Z.gtb Z.leb).
  - intros a b. rewrite Z.gtb_ltb, Z.ltb_antisym. reflexivity.
  - intros a b. rewrite !Z.leb_le. lia.
  - intros a b c. rewrite !Z.leb_le. lia.
  - discriminate.
Defined.

(** ** The three windows *)

Lemma define_windows_bounds (spike_time : instant) (w : window_name) :
  window_bounds (define_windows spike_time) w =
  match w with
  | Before => (spike_time - 600, spike_time - 1)
  | Spike => (spike_time, spike_time + 59)
  | After => (spike_time + 60, spike_time + 660)
  end.
Proof. destruct w; unfold define_windows, timedelta; cbn; f_equal; lia. Qed.

(** ** The dict of counts *)

Lemma dict_get_set (d : log_counts_t) (k k' : string) (v : counts) :
  dict_get (dict_set d k v) k' = if String.eqb k k' then Some v else dict_get d k'.
Proof.
  induction d as [| [k0 v0] d IH]; cbn.
  - destruct (String.eqb k k'); reflexivity.
  - destruct (String.eqb_spec k0 k) as [-> | Hk0]; cbn.
    + destruct (String.eqb k k'); reflexivity.
    + rewrite IH. destruct (String.eqb_spec k0 k') as [-> | Hk0'].
      * destruct (String.eqb_spec k k'); congruence.
      * reflexivity.
Qed.

Lemma dict_get_update (d : log_counts_t) (k k' : string) (f : counts -> counts) :
  dict_get (dict_update d k f) k' =
  if String.eqb k k' then option_map f (dict_get d k') else dict_get d k'.
Proof.
  induction d as [| [k0 v0] d IH]; cbn.
  - destruct (String.eqb k k'); reflexivity.
  - destruct (String.eqb_spec k0 k) as [-> | Hk0]; cbn.
    + destruct (String.eqb k k'); reflexivity.
    + rewrite IH. destruct (String.eqb_spec k0 k') as [-> | Hk0'].
      * destruct (String.eqb_spec k k'); congruence.
      * reflexivity.
Qed.

Lemma keys_update (d : log_counts_t) (k : string) (f : counts -> counts) :
  keys (dict_update d k f) = keys d.
Proof.
  unfold keys. induction d as [| [k0 v0] d IH]; cbn; [reflexivity |].
  destruct (String.eqb k0 k); cbn; [reflexivity | rewrite IH; reflexivity].
Qed.

Lemma keys_set (d : log_counts_t) (k : string) (v : counts) :
  keys (dict_set d k v) = if existsb (String.eqb k) (keys d) then keys d else keys d ++ [k].
Proof.
  unfold keys. induction d as [| [k0 v0] d IH]; cbn; [reflexivity |].
  rewrite (String.eqb_sym k k0).
  destruct (String.eqb k0 k); cbn; [reflexivity |].
  rewrite IH. destruct (existsb (String.eqb k) (map fst d)); reflexivity.
Qed.

Lemma dict_get_in_keys (d : log_counts_t) (k : string) :
  In k (keys d) <-> dict_get d k <> None.
Proof.
  unfold keys. induction d as [| [k0 v0] d IH]; cbn; [tauto |].
  destruct (String.eqb_spec k0 k) as [-> | Hk].
  - split; [discriminate | auto].
  - rewrite <- IH. split; [intros [? | ?]; [contradiction | assumption] | auto].
Qed.

Lemma initial_counts_get_gen (sites : list site) (d : log_counts_t) (name : string) :
  dict_get (fold_left (fun d s => dict_set d (site_name s) zero_counts) sites d) name =
  if existsb (fun s => String.eqb (site_name s) name) sites
  then Some zero_counts else dict_get d name.
Proof.
  revert d. induction sites as [| s r IH]; intros d; cbn [fold_left existsb].
  - reflexivity.
  - rewrite IH, dict_get_set.
    destruct (String.eqb (site_name s) name); cbn.
    + destruct (existsb _ r); reflexivity.
    + reflexivity.
Qed.

Lemma initial_counts_get (sites : list site) (name : string) :
  dict_get (initial_counts sites) name =
  if existsb (fun s => String.eqb (site_name s) name) sites
  then Some zero_counts else None.
Proof. apply initial_counts_get_gen. Qed.

(** The keys of the dict are the names of the discovered sites. *)
Lemma initial_counts_keys (sites : list site) (name : string) :
  In name (keys (initial_counts sites)) <-> In name (map site_name sites).
Proof.
  rewrite dict_get_in_keys, initial_counts_get.
  destruct (existsb _ sites) eqn:Hex.
  - apply existsb_exists in Hex as (s & Hin & Heq). apply String.eqb_eq in Heq.
    split; [intros _ | discriminate]. subst name. apply in_map, Hin.
  - split; [congruence |]. intros Hin. apply in_map_iff in Hin as (s & Heq & Hin).
    assert (existsb (fun s => String.eqb (site_name s) name) sites = true).
    { apply existsb_exists. exists s. split; [exact Hin | apply String.eqb_eq, Heq]. }
    congruence.
Qed.

(** With distinct names the iteration order of the dict is the discovery
    order. *)
Lemma initial_counts_order_gen (sites : list site) (d : log_counts_t) :
  NoDup (keys d ++ map site_name sites) ->
  keys (fold_left (fun d s => dict_set d (site_name s) zero_counts) sites d) =
  keys d ++ map site_name sites.
Proof.
  revert d. induction sites as [| s r IH]; intros d Hnd; cbn [fold_left map].
  - rewrite app_nil_r. reflexivity.
  - assert (Hfresh : existsb (String.eqb (site_name s)) (keys d) = false).
    { destruct (existsb _ (keys d)) eqn:Hex; [| reflexivity].
      apply existsb_exists in Hex as (k & Hin & Heq). apply String.eqb_eq in Heq. subst k.
      apply NoDup_remove_2 in Hnd. exfalso. apply Hnd, in_or_app. left. exact Hin. }
    assert (Hk : keys (dict_set d (site_name s) zero_counts) = keys d ++ [site_name s])
      by (rewrite keys_set, Hfresh; reflexivity).
    rewrite IH; rewrite Hk, <- app_assoc; [reflexivity | exact Hnd].
Qed.

Lemma initial_counts_order (sites : list site) :
  NoDup (map site_name sites) -> keys (initial_counts sites) = map site_name sites.
Proof. intros Hnd. apply (initial_counts_order_gen sites []). exact Hnd. Qed.

(** ** The counting loops *)
Section Counting.

Variable ssm : ssm_oracle.
Variable ws : spike_window.

Lemma set_cell_twice (w : window_name) (a b : Z) (c : counts) :
  set_cell w a (set_cell w b c) = set_cell w a c.
Proof. destruct w; reflexivity. Qed.

Lemma count_window_nil (w : window_name) (lc : log_counts_t) (tr : list string) :
  count_window ssm ws w [] lc tr = (lc, tr).
Proof. reflexivity. Qed.

Lemma count_window_cons (w : window_name) (s : site) (r : list site)
  (lc : log_counts_t) (tr : list string) :
  count_window ssm ws w (s :: r) lc tr =
  count_window ssm ws w r
    (dict_update lc (site_name s) (set_cell w (count_at ssm ws w s (List.length tr))))
    (tr ++ [count_cmd_of ws w s]).
Proof. reflexivity. Qed.

(** One loop: the commands it sends, and what it leaves in each entry. *)
Lemma count_window_spec (w : window_name) (sites : list site) :
  forall (lc : log_counts_t) (tr : list string),
    snd (count_window ssm ws w sites lc tr) = tr ++ map (count_cmd_of ws w) sites /\
    keys (fst (count_window ssm ws w sites lc tr)) = keys lc /\
    forall name,
      dict_get (fst (count_window ssm ws w sites lc tr)) name =
      option_map (apply_window w (window_value ssm ws w sites (List.length tr) name))
                 (dict_get lc name).
Proof.
  induction sites as [| s r IH]; intros lc tr.
  - rewrite count_window_nil. cbn. rewrite app_nil_r. repeat split. intros name.
    destruct (dict_get lc name); reflexivity.
  - rewrite count_window_cons.
    destruct (IH (dict_update lc (site_name s)
                    (set_cell w (count_at ssm ws w s (List.length tr))))
                 (tr ++ [count_cmd_of ws w s])) as (Htr & Hkeys & Hget).
    split; [| split].
    + rewrite Htr, <- app_assoc. reflexivity.
    + rewrite Hkeys. apply keys_update.
    + intros name. rewrite Hget, dict_get_update.
      rewrite length_app, Nat.add_1_r. cbn [window_value List.length].
      destruct (window_value ssm ws w r (S (List.length tr)) name) as [v |];
        destruct (String.eqb (site_name s) name);
        destruct (dict_get lc name) as [c |]; cbn; try reflexivity.
      rewrite set_cell_twice. reflexivity.
Qed.

(** No site of that name: the loop leaves the cell alone. *)
Lemma window_value_absent (w : window_name) (sites : list site) (name : string) :
  (forall s', In s' sites -> site_name s' <> name) ->
  forall idx, window_value ssm ws w sites idx name = None.
Proof.
  induction sites as [| x r IH]; intros Hno idx; [reflexivity |].
  cbn [window_value]. rewrite IH by (intros s' Hs'; apply Hno; right; exact Hs').
  destruct (String.eqb_spec (site_name x) name) as [Heq | _]; [| reflexivity].
  exfalso. apply (Hno x); [left; reflexivity | exact Heq].
Qed.

(** The value of a site that is the last of its name. *)
Lemma window_value_last (w : window_name) (sites : list site) :
  forall (idx i : nat) (s : site),
    nth_error sites i = Some s ->
    (forall j s', (i < j)%nat -> nth_error sites j = Some s' ->
                  site_name s' <> site_name s) ->
    window_value ssm ws w sites idx (site_name s) = Some (count_at ssm ws w s (idx + i)).
Proof.
  induction sites as [| x r IH]; intros idx i s Hnth Hlast.
  - destruct i; discriminate.
  - cbn [window_value]. destruct i as [| i].
    + cbn in Hnth. injection Hnth as ->.
      rewrite window_value_absent, String.eqb_refl, Nat.add_0_r; [reflexivity |].
      intros s' Hs'. apply In_nth_error in Hs' as [j Hj].
      apply (Hlast (S j) s'); [lia | exact Hj].
    + cbn in Hnth. rewrite (IH (S idx) i s Hnth).
      * f_equal. f_equal. lia.
      * intros j s' Hj Hs'. apply (Hlast (S j) s'); [lia | exact Hs'].
Qed.

End Counting.


Lemma cell_apply_windows (w : window_name) (vB vS vA : option Z) (c : counts) :
  cell w (apply_window After vA (apply_window Spike vS (apply_window Before vB c))) =
  match (match w with Before => vB | Spike => vS | After => vA end) with
  | Some v => v
  | None => cell w c
  end.
Proof. destruct w, vB, vS, vA; reflexivity. Qed.

(** The whole of [get_log_counts_for_sites]: the commands sent, the keys,
    and every cell. *)
Lemma get_log_counts_spec (ssm : ssm_oracle) (sites : list site)
  (spike_time : instant) (tr : list string) :
  let r := get_log_counts_for_sites ssm sites spike_time tr in
  let ws := define_windows spike_time in
  snd r = tr ++ map (count_cmd_of ws Before) sites
             ++ map (count_cmd_of ws Spike) sites
             ++ map (count_cmd_of ws After) sites /\
  keys (fst r) = keys (initial_counts sites) /\
  forall name w,
    option_map (cell w) (dict_get (fst r) name) =
    option_map
      (fun c =>
         match window_value ssm ws w sites
                 (List.length tr + window_index w * List.length sites) name with
         | Some v => v
         | None => cell w c
         end)
      (dict_get (initial_counts sites) name).
Proof.
  cbv zeta. unfold get_log_counts_for_sites. fold (initial_counts sites).
  set (ws := define_windows spike_time).
  unfold bind.
  pose proof (count_window_spec ssm ws Before sites (initial_counts sites) tr) as HB.
  destruct (count_window ssm ws Before sites (initial_counts sites) tr) as [lc1 tr1].
  cbn [fst snd] in HB. destruct HB as (HtrB & HkB & HgB).
  pose proof (count_window_spec ssm ws Spike sites lc1 tr1) as HS.
  destruct (count_window ssm ws Spike sites lc1 tr1) as [lc2 tr2].
  cbn [fst snd] in HS. destruct HS as (HtrS & HkS & HgS).
  pose proof (count_window_spec ssm ws After sites lc2 tr2) as HA.
  destruct (count_window ssm ws After sites lc2 tr2) as [lc3 tr3].
  cbn [fst snd] in HA. destruct HA as (HtrA & HkA & HgA).
  cbn [ret fst snd].
  assert (Hl1 : List.length tr1 = (List.length tr + List.length sites)%nat)
    by (rewrite HtrB, length_app, length_map; reflexivity).
  assert (Hl2 : List.length tr2 = (List.length tr + 2 * List.length sites)%nat)
    by (rewrite HtrS, length_app, length_map; lia).
  split; [| split].
  - rewrite HtrA, HtrS, HtrB, <- !app_assoc. reflexivity.
  - congruence.
  - intros name w. rewrite HgA, HgS, HgB, Hl1, Hl2.
    destruct (dict_get (initial_counts sites) name) as [c |]; [| reflexivity].
    cbn [option_map]. rewrite cell_apply_windows.
    destruct w; cbn [window_index];
      rewrite ?Nat.mul_0_l, ?Nat.add_0_r, ?Nat.mul_1_l; reflexivity.
Qed.

(** ** The cycle, branch by branch *)
Section CycleBranches.

Variable V : Type.
Variable gt : V -> V -> bool.
Variable fmt_2f : V -> string.
Variable ssm : ssm_oracle.
Variable gunicorn_matches : list (string * string).
Variable status : string * string * string.

Lemma run_cycle_no_metrics :
  run_cycle V gt fmt_2f ssm gunicorn_matches status [] = (EmptyString, []).
Proof. reflexivity. Qed.

Lemma run_cycle_no_sites (cpu_per_minute : list (point V)) :
  cpu_per_minute <> [] -> gunicorn_matches = [] ->
  run_cycle V gt fmt_2f ssm gunicorn_matches status cpu_per_minute
  = (EmptyString, [ps_cmd]).
Proof.
  intros Hcpu Hm. destruct cpu_per_minute as [| first rest]; [congruence |].
  subst gunicorn_matches. reflexivity.
Qed.

Lemma run_cycle_analysis (first : point V) (rest : list (point V)) :
  gunicorn_matches <> [] ->
  let spike := max_from V gt first rest in
  let all_sites := map site_of_match gunicorn_matches in
  let counted := get_log_counts_for_sites ssm all_sites (Timestamp spike) [ps_cmd] in
  run_cycle V gt fmt_2f ssm gunicorn_matches status (first :: rest)
  = attribute_and_report V fmt_2f ssm status (first :: rest) spike
      (Timestamp spike - timedelta 10 0) (Timestamp spike + timedelta 10 0)
      all_sites (fst counted) (snd counted).
Proof.
  intros Hm. cbv zeta.
  unfold run_cycle, cycle, get_all_gunicorn_sites, send_command.
  unfold bind at 1. unfold bind at 1. cbn [ret app].
  destruct gunicorn_matches as [| m ms]; [congruence |].
  cbn [map]. unfold bind at 1.
  destruct (get_log_counts_for_sites ssm (site_of_match m :: map site_of_match ms)
              (Timestamp (max_from V gt first rest)) [ps_cmd]) as [lc tr].
  reflexivity.
Qed.




End CycleBranches.

(** ** Attribution over the dict of the cycle *)

(** With distinct site names, the dict that the attribution loop iterates
    lists the sites in discovery order. *)
Lemma log_counts_in_discovery_order (ssm : ssm_oracle) (sites : list site)
  (spike_time : instant) (tr : list string) :
  NoDup (map site_name sites) ->
  keys (fst (get_log_counts_for_sites ssm sites spike_time tr)) = map site_name sites.
Proof.
  intros Hnd. destruct (get_log_counts_spec ssm sites spike_time tr) as (_ & Hkeys & _).
  rewrite Hkeys. apply initial_counts_order, Hnd.
Qed.

(** C1. Spike attributor: the magnitude of a site is the largest of
    |spike - before|, |after - spike| and |after - before|; the loop ends
    with the largest magnitude of all sites, and as soon as that magnitude
    is positive the attributed site is the first one, in the iteration order
    of the dict, that has it (all sites before it are strictly smaller);
    that order is the discovery order when the discovered names are
    distinct.  On the counts A = (10, 10, 10), B = (5, 50, 6) the result is
    B with magnitude 45. *)
Theorem C1_attribution_first_largest (log_counts : log_counts_t) :
  (forall name c, In (name, c) log_counts ->
     Z.abs (spike c - before c) <= site_spike c /\
     Z.abs (after c - spike c) <= site_spike c /\
     Z.abs (after c - before c) <= site_spike c /\
     (site_spike c = Z.abs (spike c - before c) \/
      site_spike c = Z.abs (after c - spike c) \/
      site_spike c = Z.abs (after c - before c)) /\
     site_spike c <= max_spike (attribute log_counts)) /\
  ((exists name c, In (name, c) log_counts /\ 0 < site_spike c) ->
   exists l1 name c l2,
     log_counts = l1 ++ (name, c) :: l2 /\
     Spike_site (attribute log_counts) = Some name /\
     max_spike (attribute log_counts) = site_spike c /\
     (forall name' c', In (name', c') l1 -> site_spike c' < site_spike c) /\
     (forall name' c', In (name', c') l2 -> site_spike c' <= site_spike c)) /\
  (forall ssm sites spike_time tr,
     NoDup (map site_name sites) ->
     keys (fst (get_log_counts_for_sites ssm sites spike_time tr))
     = map site_name sites) /\
  Spike_site (attribute counts_A_B) = Some "B"%string /\
  max_spike (attribute counts_A_B) = 45.
Proof.
  destruct (attribute_inv log_counts) as [Hmax Hsite].
  split; [| split; [| split; [| split; reflexivity]]].
  - intros name c Hin.
    pose proof (site_spike_upper c) as (H1 & H2 & H3).
    pose proof (site_spike_attained c) as H4.
    specialize (Hmax _ _ Hin). tauto.
  - intros (n0 & c0 & Hin0 & Hpos0).
    destruct Hsite as [[H0 _] | [Hpos (l1 & name & c & l2 & Hd & Hs & Hm & Hfirst)]].
    + specialize (Hmax _ _ Hin0). lia.
    + exists l1, name, c, l2. repeat split; auto.
      * intros n' c' Hin. rewrite Hm. eauto.
      * intros n' c' Hin. rewrite Hm. apply (Hmax n' c').
        rewrite Hd. apply in_or_app. right. right. exact Hin.
  - intros ssm sites spike_time tr. apply log_counts_in_discovery_order.
Qed.

(** The statement of C1 at the example of the specification. *)
Lemma C1_attribution_witness :
  exists l1 name c l2,
    counts_A_B = l1 ++ (name, c) :: l2 /\
    Spike_site (attribute counts_A_B) = Some name /\
    max_spike (attribute counts_A_B) = site_spike c /\
    (forall name' c', In (name', c') l1 -> site_spike c' < site_spike c) /\
    (forall name' c', In (name', c') l2 -> site_spike c' <= site_spike c).
Proof.
  apply (proj1 (proj2 (C1_attribution_first_largest counts_A_B))).
  exists "B"%string, {| before := 5; spike := 50; after := 6 |}.
  split; [right; left; reflexivity | reflexivity].
Defined.

(** ** Failure of one count operation *)



Lemma nth_error_site_name (sites : list site) (i : nat) (s : site) :
  nth_error sites i = Some s ->
  existsb (fun s' => String.eqb (site_name s') (site_name s)) sites = true.
Proof.
  intros H. apply existsb_exists. exists s.
  split; [eapply nth_error_In; exact H | apply String.eqb_refl].
Qed.




(** ** The log path of the attributed site *)

Lemma find_site_by_name (sites : list site) (name : string) :
  In name (map site_name sites) ->
  exists s,
    find (fun s => String.eqb (site_name s) name) sites = Some s /\
    In s sites /\ site_name s = name.
Proof.
  induction sites as [| x r IH]; cbn [map find]; [intros [] |].
  intros Hin. destruct (String.eqb_spec (site_name x) name) as [Heq | Hne].
  - exists x. repeat split; [left; reflexivity | exact Heq].
  - destruct Hin as [Heq | Hin]; [contradiction |].
    destruct (IH Hin) as (s & Hf & Hs & Hn).
    exists s. repeat split; [exact Hf | right; exact Hs | exact Hn].
Qed.

Lemma site_of_match_path_truthy (m : string * string) :
  Py.truthy (access_log_path (site_of_match m)) = true.
Proof.
  destruct m as [name access_log]. cbn.
  destruct (String.prefix "/" access_log) eqn:Hp; [| reflexivity].
  destruct access_log; [discriminate | reflexivity].
Qed.

(** The attributed name is the name of a discovered site, so the lookup of
    its log path finds one. *)
Lemma attributed_site_lookup
  (ssm : ssm_oracle) (sites : list site) (spike_time : instant)
  (tr : list string) (name : string) :
  Spike_site (attribute (fst (get_log_counts_for_sites ssm sites spike_time tr)))
  = Some name ->
  exists s,
    In s sites /\ site_name s = name /\
    lookup_log_path sites (Some name) = Some (access_log_path s).
Proof.
  intros Hsite. apply attribute_site_is_key in Hsite.
  destruct (get_log_counts_spec ssm sites spike_time tr) as (_ & Hkeys & _).
  rewrite Hkeys in Hsite. apply initial_counts_keys in Hsite.
  destruct (find_site_by_name sites name Hsite) as (s & Hfind & Hin & Hname).
  exists s. repeat split; [exact Hin | exact Hname |].
  cbn. rewrite Hfind. reflexivity.
Qed.

(** C10. Whenever the attribution over the counts of
    [get_log_counts_for_sites] names a site, that name is the name of a
    discovered site and the lookup of its access-log path succeeds; for the
    sites that the discovery builds the path is moreover a non-empty
    string. *)
Theorem C10_attributed_site_has_log_path
  (ssm : ssm_oracle) (sites : list site) (spike_time : instant)
  (tr : list string) (name : string) :
  Spike_site (attribute (fst (get_log_counts_for_sites ssm sites spike_time tr)))
  = Some name ->
  exists s,
    In s sites /\ site_name s = name /\
    lookup_log_path sites (Some name) = Some (access_log_path s) /\
    lookup_log_path sites (Some name) <> None /\
    (forall matches, sites = map site_of_match matches ->
                     Py.truthy (access_log_path s) = true).
Proof.
  intros Hsite.
  destruct (attributed_site_lookup ssm sites spike_time tr name Hsite)
    as (s & Hin & Hname & Hlookup).
  exists s. repeat split; [exact Hin | exact Hname | exact Hlookup | congruence |].
  intros matches ->. apply in_map_iff in Hin as (m & <- & _).
  apply site_of_match_path_truthy.
Qed.

(** C10 at the scenario: X is attributed and its path is found. *)
Lemma C10_log_path_witness :
  exists s,
    In s (map site_of_match scenario_matches) /\ site_name s = "X"%string /\
    lookup_log_path (map site_of_match scenario_matches) (Some "X"%string)
    = Some (access_log_path s) /\
    lookup_log_path (map site_of_match scenario_matches) (Some "X"%string) <> None /\
    (forall matches, map site_of_match scenario_matches = map site_of_match matches ->
                     Py.truthy (access_log_path s) = true).
Proof.
  apply (C10_attributed_site_has_log_path scenario_ssm
           (map site_of_match scenario_matches) t1 [ps_cmd] "X").
  reflexivity.
Defined.

(** ** No culprit *)

Lemma attribute_all_zero (log_counts : log_counts_t) :
  (forall name c, In (name, c) log_counts -> site_spike c = 0) ->
  Spike_site (attribute log_counts) = None /\ max_spike (attribute log_counts) = 0.
Proof.
  intros Hzero. destruct (attribute_inv log_counts) as [_ [[H0 Hnone] | [Hpos H]]].
  - split; assumption.
  - destruct H as (l1 & name & c & l2 & Hd & _ & Hm & _).
    assert (Hin : In (name, c) log_counts)
      by (rewrite Hd; apply in_or_app; right; left; reflexivity).
    specialize (Hzero _ _ Hin). lia.
Qed.

(** C6. No-culprit rule: when every site has magnitude 0, and so whenever
    before = spike = after for every site, the attribution names no site
    and leaves the maximum at 0; whatever the discovered sites are, the
    report then ends with the sentence "Could not identify a clear Spike
    website from log data." and no command is sent: no detailed logs are
    fetched. *)
Theorem C6_no_culprit (log_counts : log_counts_t) :
  (forall name c, In (name, c) log_counts -> site_spike c = 0) ->
  (forall c, before c = spike c -> spike c = after c -> site_spike c = 0) /\
  Spike_site (attribute log_counts) = None /\
  max_spike (attribute log_counts) = 0 /\
  forall (V : Type) (fmt_2f : V -> string) (ssm : ssm_oracle)
         (status : string * string * string) (cpu_per_minute : list (point V))
         (spike : point V) (pre_start post_end : instant) (all_sites : list site)
         (tr : list string),
    attribute_and_report V fmt_2f ssm status cpu_per_minute spike pre_start post_end
      all_sites log_counts tr
    = ((report_head V fmt_2f status cpu_per_minute spike (attribute log_counts)
          ++ nl ++ "Could not identify a clear Spike website from log data." ++ nl)%string,
       tr).
Proof.
  intros Hzero. destruct (attribute_all_zero log_counts Hzero) as [Hnone H0].
  split; [exact site_spike_flat | split; [exact Hnone | split; [exact H0 |]]].
  intros. unfold attribute_and_report. rewrite Hnone. reflexivity.
Qed.

(** C6 on counts A = (10, 10, 10), B = (7, 7, 7). *)
Lemma C6_no_culprit_witness :
  Spike_site (attribute flat_counts) = None /\ max_spike (attribute flat_counts) = 0.
Proof.
  assert (H : forall name c, In (name, c) flat_counts -> site_spike c = 0).
  { intros name c [Heq | [Heq | []]]; inversion Heq; reflexivity. }
  destruct (C6_no_culprit flat_counts H) as (_ & Hnone & H0 & _).
  split; assumption.
Defined.

(** ** The detailed log fetch *)

(** The claim as stated fails on the scenario: X is attributed, and no
    command fetches the range that ends 11 minutes after the spike; the
    fetch that is sent ends 10 minutes after it. *)
Lemma C4_fetch_range_counterexample :
  let trace :=
    snd (run_cycle Z Z.gtb scenario_fmt scenario_ssm scenario_matches
           scenario_status scenario_cpu) in
  ~ In (fetch_cmd (strftime_access (t1 - 10 * 60)) (strftime_access (t1 + 11 * 60))
          "/logpath1") trace /\
  In (fetch_cmd (strftime_access (t1 - 10 * 60)) (strftime_access (t1 + 10 * 60))
        "/logpath1") trace.
Proof.
  cbv zeta. split.
  - intros H. apply (in_map (String.eqb
      (fetch_cmd (strftime_access (t1 - 10 * 60)) (strftime_access (t1 + 11 * 60))
         "/logpath1"))) in H.
    rewrite String.eqb_refl in H. vm_compute in H.
    repeat (destruct H as [H | H]; [discriminate |]). exact H.
  - vm_compute. do 7 right. left. reflexivity.
Qed.

(** C4, amended. Whenever the attribution names a site with a non-empty
    name, the cycle sends, after the count commands, exactly one more
    command: the fetch on the access log of that site from 10 minutes before
    the spike to 10 minutes after it. *)
Theorem C4_fetch_range
  (V : Type) (gt : V -> V -> bool) (fmt_2f : V -> string) (ssm : ssm_oracle)
  (matches : list (string * string)) (status : string * string * string)
  (first : point V) (rest : list (point V)) (name : string) :
  let spike_time := Timestamp (max_from V gt first rest) in
  let all_sites := map site_of_match matches in
  let counted := get_log_counts_for_sites ssm all_sites spike_time [ps_cmd] in
  Spike_site (attribute (fst counted)) = Some name ->
  name <> EmptyString ->
  exists path,
    lookup_log_path all_sites (Some name) = Some path /\
    snd (run_cycle V gt fmt_2f ssm matches status (first :: rest))
    = snd counted
        ++ [fetch_cmd (strftime_access (spike_time - 10 * 60))
                      (strftime_access (spike_time + 10 * 60)) path].
Proof.
  intros spike_time all_sites counted Hsite Hname.
  destruct (attributed_site_lookup ssm all_sites spike_time [ps_cmd] name Hsite)
    as (s & Hin & Hs & Hlookup).
  exists (access_log_path s). split; [exact Hlookup |].
  assert (Hm : matches <> []).
  { intros ->. exact Hin. }
  assert (Htruthy : Py.truthy (access_log_path s) = true).
  { apply in_map_iff in Hin as (m & <- & _). apply site_of_match_path_truthy. }
  rewrite (run_cycle_analysis V gt fmt_2f ssm matches status first rest Hm).
  fold spike_time. fold all_sites. fold counted.
  unfold attribute_and_report. rewrite Hsite, Hlookup.
  rewrite Htruthy.
  destruct name as [| c name]; [congruence |].
  cbn [Py.truthy andb].
  unfold fetch_logs_window, send_command, bind, ret, timedelta. cbn [snd].
  rewrite !Z.add_0_r. reflexivity.
Qed.

(** C4 at the scenario: X is attributed and the fetch on its log runs from
    31/Jan/2025:23:50:00 to 01/Feb/2025:00:10:00. *)
Lemma C4_fetch_range_witness :
  exists path,
    lookup_log_path (map site_of_match scenario_matches) (Some "X"%string) = Some path /\
    snd (run_cycle Z Z.gtb scenario_fmt scenario_ssm scenario_matches
           scenario_status scenario_cpu)
    = snd (get_log_counts_for_sites scenario_ssm (map site_of_match scenario_matches)
             t1 [ps_cmd])
        ++ [fetch_cmd "31/Jan/2025:23:50:00" "01/Feb/2025:00:10:00" path].
Proof.
  apply (C4_fetch_range Z Z.gtb scenario_fmt scenario_ssm scenario_matches
           scenario_status {| Timestamp := t1 - 60; CPU := 10 |}
           [ {| Timestamp := t1; CPU := 85 |}; {| Timestamp := t1 + 60; CPU := 20 |} ]
           "X").
  - reflexivity.
  - discriminate.
Defined.

(** ** The degraded paths *)

(** The claim as stated fails: with an empty series and the instance
    running, the report is the empty string and does not hold the state of
    the instance. *)
Lemma C7_empty_metrics_counterexample :
  let report :=
    fst (run_cycle Z Z.gtb scenario_fmt scenario_ssm scenario_matches
           scenario_status []) in
  report = EmptyString /\ contains "running" report = false.
Proof. split; reflexivity. Qed.

(** C7, amended. On an empty metric series the cycle sends no command at
    all (no discovery, no count, no fetch) and the report it hands over is
    the empty string: it holds no spike-related field and no instance
    status either. *)
Theorem C7_empty_metrics_skip_all
  (V : Type) (gt : V -> V -> bool) (fmt_2f : V -> string) (ssm : ssm_oracle)
  (matches : list (string * string)) (status : string * string * string) :
  snd (run_cycle V gt fmt_2f ssm matches status []) = [] /\
  fst (run_cycle V gt fmt_2f ssm matches status []) = EmptyString /\
  forall needle, needle <> EmptyString ->
    contains needle (fst (run_cycle V gt fmt_2f ssm matches status [])) = false.
Proof.
  repeat split. intros needle Hne. cbn.
  destruct needle; [congruence | reflexivity].
Qed.

(** The claim as stated fails: when the discovery finds no site, the report
    is the empty string; it does not state that no services were found. *)
Lemma C9_degraded_report_counterexample :
  let report :=
    fst (run_cycle Z Z.gtb scenario_fmt scenario_ssm [] scenario_status scenario_cpu) in
  report = EmptyString /\ contains "No Gunicorn sites found" report = false.
Proof. split; reflexivity. Qed.

(** C9, amended. In both degraded paths the cycle still ends with a report
    value, and that value is the empty string: on an empty metric series no
    command has been sent, on an empty discovery only the process listing
    has. *)
Theorem C9_degraded_report_is_empty
  (V : Type) (gt : V -> V -> bool) (fmt_2f : V -> string) (ssm : ssm_oracle)
  (status : string * string * string) :
  (forall matches,
     run_cycle V gt fmt_2f ssm matches status [] = (EmptyString, [])) /\
  (forall first rest,
     run_cycle V gt fmt_2f ssm [] status (first :: rest) = (EmptyString, [ps_cmd])).
Proof. split; reflexivity. Qed.

(** ** The remote filters against the windows *)

(** C3. Both filters compare the stamp of a line with the bounds of the
    window as strings, and [count_logs] cuts the stamp to 19 of its 20
    characters.  Evaluated on lines whose stamp reads back as an instant:
    - the spike window [t1, t1 + 59]: a line stamped [t1] lies in the window
      and is not counted;
    - the window after the spike [t1 + 60, t1 + 660]: a line stamped
      [t1 + 665] lies outside the window and is counted;
    - the fetch over [t1 - 600, t1 + 600], which starts in January and ends
      in February: a line stamped [t1] lies in the window and is not
      fetched. *)
Theorem C3_filters_compare_text :
  let ws := define_windows t1 in
  (line_time (access_line t1) = Some t1 /\
   spec_in_window (spike_start ws) (spike_end ws) (access_line t1) = true /\
   count_logs_on_file (spike_start ws) (spike_end ws) [access_line t1] = 0) /\
  (line_time (access_line (t1 + 665)) = Some (t1 + 665) /\
   spec_in_window (post_spike_start ws) (post_spike_end ws) (access_line (t1 + 665)) = false /\
   count_logs_on_file (post_spike_start ws) (post_spike_end ws) [access_line (t1 + 665)] = 1) /\
  (spec_in_window (t1 - timedelta 10 0) (t1 + timedelta 10 0) (access_line t1) = true /\
   fetch_logs_filter (t1 - timedelta 10 0) (t1 + timedelta 10 0) [access_line t1] = []).
Proof. vm_compute. repeat split; reflexivity. Qed.

(** * Further properties of the cycle *)

(** ** Magnitude and attribution *)

Lemma site_spike_zero_iff (c : counts) :
  site_spike c = 0 <-> before c = spike c /\ spike c = after c.
Proof. unfold site_spike. lia. Qed.

(** X1. The magnitude of a site is the spread of its three counts, the
    largest minus the smallest: a drop weighs as much as a rise, and the
    magnitude is 0 exactly when the three counts are equal. *)
Theorem X1_site_spike_is_spread (c : counts) :
  site_spike c =
    Z.max (before c) (Z.max (spike c) (after c))
    - Z.min (before c) (Z.min (spike c) (after c)) /\
  (site_spike c = 0 <-> before c = spike c /\ spike c = after c).
Proof. split; [unfold site_spike; lia | apply site_spike_zero_iff]. Qed.

(** X2. The attribution loop names a site exactly when its maximum is
    positive, and it names none exactly when every site has three equal
    counts; the maximum is never negative. *)
Theorem X2_site_named_iff_positive (log_counts : log_counts_t) :
  0 <= max_spike (attribute log_counts) /\
  (Spike_site (attribute log_counts) = None <-> max_spike (attribute log_counts) = 0) /\
  (Spike_site (attribute log_counts) = None <->
   forall name c, In (name, c) log_counts -> before c = spike c /\ spike c = after c).
Proof.
  destruct (attribute_inv log_counts) as [Hmax [[H0 Hnone] | [Hpos H]]].
  - split; [lia | split; [tauto |]]. split; [intros _ | intros _; exact Hnone].
    intros name c Hin. apply site_spike_zero_iff.
    pose proof (Hmax _ _ Hin). pose proof (site_spike_nonneg c). lia.
  - destruct H as (l1 & name & c & l2 & Hd & Hsome & Hm & _).
    split; [lia | split].
    + split; [congruence | lia].
    + split; [congruence |]. intros Hflat. exfalso.
      assert (Hin : In (name, c) log_counts)
        by (rewrite Hd; apply in_or_app; right; left; reflexivity).
      apply Hflat, site_spike_zero_iff in Hin. lia.
Qed.

Lemma report_metrics_fold (l : log_counts_t) (a : attribution) :
  report_metrics (fold_left attribution_step l a)
  = report_metrics a ++ map (fun item => metric_line (fst item) (snd item)) l.
Proof.
  revert a. induction l as [| [name c] l IH]; intros a; cbn [fold_left map].
  - rewrite app_nil_r. reflexivity.
  - rewrite IH. unfold attribution_step.
    destruct (site_spike c >? max_spike a); cbn [report_metrics fst snd];
      rewrite <- app_assoc; reflexivity.
Qed.

(** X3. The attribution loop writes one metrics line per entry of the dict,
    in the order of the dict, whichever site it ends up naming. *)
Theorem X3_one_metrics_line_per_site (log_counts : log_counts_t) :
  report_metrics (attribute log_counts)
  = map (fun item => metric_line (fst item) (snd item)) log_counts /\
  List.length (report_metrics (attribute log_counts)) = List.length log_counts.
Proof.
  unfold attribute. rewrite report_metrics_fold. cbn [attribution_init report_metrics app].
  split; [reflexivity | apply length_map].
Qed.

(** ** Discovery *)




(** ** The counting loops never miss a key *)

Lemma dict_update_checked_present (d : log_counts_t) (k : string)
  (f : counts -> counts) :
  In k (keys d) -> dict_update_checked d k f = Some (dict_update d k f).
Proof.
  unfold keys. induction d as [| [k0 v0] d IH]; cbn; [intros [] |].
  intros Hin. destruct (String.eqb_spec k0 k) as [Heq | Hne]; [reflexivity |].
  destruct Hin as [Heq | Hin]; [contradiction |].
  rewrite (IH Hin). reflexivity.
Qed.

Lemma dict_update_checked_absent (d : log_counts_t) (k : string)
  (f : counts -> counts) :
  ~ In k (keys d) -> dict_update_checked d k f = None.
Proof.
  unfold keys. induction d as [| [k0 v0] d IH]; cbn; [reflexivity |].
  intros Hnin. destruct (String.eqb_spec k0 k) as [Heq | Hne]; [tauto |].
  rewrite IH; [reflexivity | tauto].
Qed.

Lemma count_window_checked_ok (ssm : ssm_oracle) (ws : spike_window)
  (w : window_name) (sites : list site) :
  forall (lc : log_counts_t) (tr : list string),
    (forall s, In s sites -> In (site_name s) (keys lc)) ->
    count_window_checked ssm ws w sites lc tr = Some (count_window ssm ws w sites lc tr).
Proof.
  induction sites as [| s r IH]; intros lc tr Hkeys.
  - reflexivity.
  - rewrite count_window_cons. cbn [count_window_checked].
    unfold count_logs, send_command, bind, ret.
    rewrite dict_update_checked_present by (apply Hkeys; left; reflexivity).
    apply IH. intros s' Hs'. rewrite keys_update. apply Hkeys. right. exact Hs'.
Qed.

(** X5. No subscript of the counting loops can raise [KeyError]: the loops
    with checked subscripts always run to the end and give the result of
    [get_log_counts_for_sites], for every list of sites, also with repeated
    names; the result has an entry for every discovered site and for no
    other name. *)
Theorem X5_counting_never_misses_a_key
  (ssm : ssm_oracle) (sites : list site) (spike_time : instant) (tr : list string) :
  get_log_counts_for_sites_checked ssm sites spike_time tr
  = Some (get_log_counts_for_sites ssm sites spike_time tr) /\
  (forall name,
     dict_get (fst (get_log_counts_for_sites ssm sites spike_time tr)) name <> None
     <-> In name (map site_name sites)).
Proof.
  split.
  - unfold get_log_counts_for_sites_checked, get_log_counts_for_sites.
    fold (initial_counts sites). set (ws := define_windows spike_time).
    assert (H0 : forall s, In s sites -> In (site_name s) (keys (initial_counts sites))).
    { intros s Hs. apply initial_counts_keys, in_map, Hs. }
    rewrite (count_window_checked_ok ssm ws Before sites _ tr H0).
    unfold bind at 1.
    pose proof (count_window_spec ssm ws Before sites (initial_counts sites) tr)
      as (_ & Hk1 & _).
    destruct (count_window ssm ws Before sites (initial_counts sites) tr) as [lc1 tr1].
    cbn [fst] in Hk1.
    assert (H1 : forall s, In s sites -> In (site_name s) (keys lc1))
      by (intros s Hs; rewrite Hk1; apply H0, Hs).
    rewrite (count_window_checked_ok ssm ws Spike sites lc1 tr1 H1).
    unfold bind at 1.
    pose proof (count_window_spec ssm ws Spike sites lc1 tr1) as (_ & Hk2 & _).
    destruct (count_window ssm ws Spike sites lc1 tr1) as [lc2 tr2].
    cbn [fst] in Hk2.
    assert (H2 : forall s, In s sites -> In (site_name s) (keys lc2))
      by (intros s Hs; rewrite Hk2; apply H1, Hs).
    rewrite (count_window_checked_ok ssm ws After sites lc2 tr2 H2).
    unfold bind, ret.
    destruct (count_window ssm ws After sites lc2 tr2) as [lc3 tr3]. reflexivity.
  - intros name. rewrite <- dict_get_in_keys.
    destruct (get_log_counts_spec ssm sites spike_time tr) as (_ & Hkeys & _).
    rewrite Hkeys. apply initial_counts_keys.
Qed.

(** ** Iteration order of the dict *)

Lemma filter_all_true (p : string -> bool) (l : list string) :
  (forall x, In x l -> p x = true) -> filter p l = l.
Proof.
  induction l as [| x l IH]; intros H; cbn; [reflexivity |].
  rewrite (H x (or_introl eq_refl)), IH; [reflexivity |].
  intros y Hy. apply H. right. exact Hy.
Qed.

Lemma filter_comm (p q : string -> bool) (l : list string) :
  filter p (filter q l) = filter q (filter p l).
Proof.
  induction l as [| x l IH]; cbn; [reflexivity |].
  destruct (p x) eqn:Hp, (q x) eqn:Hq; cbn; rewrite ?Hp, ?Hq, IH; reflexivity.
Qed.

Lemma filter_filter_and (p q : string -> bool) (l : list string) :
  filter p (filter q l) = filter (fun x => q x && p x)%bool l.
Proof.
  induction l as [| x l IH]; cbn; [reflexivity |].
  destruct (q x) eqn:Hq; cbn; [destruct (p x); rewrite IH; reflexivity | exact IH].
Qed.

Lemma first_occurrences_in (l : list string) (x : string) :
  In x (first_occurrences l) <-> In x l.
Proof.
  induction l as [| y l IH]; cbn; [tauto |].
  rewrite filter_In, IH. destruct (String.eqb_spec y x) as [Heq | Hne]; cbn.
  - intuition congruence.
  - intuition congruence.
Qed.

Lemma first_occurrences_filter (p : string -> bool) (l : list string) :
  filter p (first_occurrences l) = first_occurrences (filter p l).
Proof.
  induction l as [| x l IH]; cbn [first_occurrences filter]; [reflexivity |].
  destruct (p x) eqn:Hp; cbn [first_occurrences].
  - rewrite filter_comm, IH. reflexivity.
  - rewrite filter_comm, IH. apply filter_all_true.
    intros y Hy. apply first_occurrences_in, filter_In in Hy as [_ Hpy].
    destruct (String.eqb_spec x y) as [Heq | _]; [congruence | reflexivity].
Qed.

Lemma first_occurrences_nodup (l : list string) : NoDup (first_occurrences l).
Proof.
  induction l as [| x l IH]; cbn; constructor.
  - intros Hin. apply filter_In in Hin as [_ Hx]. rewrite String.eqb_refl in Hx. discriminate.
  - apply NoDup_filter, IH.
Qed.

Lemma initial_counts_keys_fold (sites : list site) (d : log_counts_t) :
  keys (fold_left (fun d s => dict_set d (site_name s) zero_counts) sites d)
  = keys d
      ++ first_occurrences
           (filter (fun k => negb (existsb (String.eqb k) (keys d)))
                   (map site_name sites)).
Proof.
  revert d. induction sites as [| s r IH]; intros d; cbn [fold_left map filter].
  - cbn. rewrite app_nil_r. reflexivity.
  - rewrite IH, keys_set.
    destruct (existsb (String.eqb (site_name s)) (keys d)) eqn:Hex; cbn [negb].
    + reflexivity.
    + cbn [first_occurrences]. rewrite <- app_assoc. cbn [app]. do 2 f_equal.
      rewrite first_occurrences_filter, filter_filter_and.
      f_equal. apply filter_ext. intros k.
      rewrite existsb_app. cbn [existsb]. rewrite orb_false_r, negb_orb.
      rewrite (String.eqb_sym k). reflexivity.
Qed.

(** X6. The dict of counts lists each site name once, in the order in which
    the names first appear in the discovered list, whatever the host
    answers: this is the order in which the attribution loop meets the
    sites, also when a name is discovered several times. *)
Theorem X6_dict_order_is_first_appearance
  (ssm : ssm_oracle) (sites : list site) (spike_time : instant) (tr : list string) :
  keys (fst (get_log_counts_for_sites ssm sites spike_time tr))
  = first_occurrences (map site_name sites) /\
  NoDup (keys (fst (get_log_counts_for_sites ssm sites spike_time tr))).
Proof.
  destruct (get_log_counts_spec ssm sites spike_time tr) as (_ & Hkeys & _).
  assert (H : keys (initial_counts sites) = first_occurrences (map site_name sites)).
  { unfold initial_counts. rewrite initial_counts_keys_fold. cbn [keys map app].
    f_equal. apply filter_all_true. reflexivity. }
  rewrite Hkeys, H. split; [reflexivity | apply first_occurrences_nodup].
Qed.

(** ** The commands of a cycle *)

(** X7. Counting sends exactly three commands per discovered site: the
    commands of the window before the spike for all sites in discovery
    order, then those of the spike window, then those of the window after
    it.  What the host answers changes neither their number, nor their
    text, nor their order. *)
Theorem X7_three_count_commands_per_site
  (ssm1 ssm2 : ssm_oracle) (sites : list site) (spike_time : instant)
  (tr : list string) :
  snd (get_log_counts_for_sites ssm1 sites spike_time tr)
  = tr ++ count_cmds sites spike_time /\
  List.length (count_cmds sites spike_time) = (3 * List.length sites)%nat /\
  snd (get_log_counts_for_sites ssm2 sites spike_time tr)
  = snd (get_log_counts_for_sites ssm1 sites spike_time tr).
Proof.
  destruct (get_log_counts_spec ssm1 sites spike_time tr) as (Htr1 & _).
  destruct (get_log_counts_spec ssm2 sites spike_time tr) as (Htr2 & _).
  split; [exact Htr1 | split; [| congruence]].
  unfold count_cmds. rewrite !length_app, !length_map. lia.
Qed.

Lemma attribute_and_report_trace
  (V : Type) (fmt_2f : V -> string) (ssm : ssm_oracle)
  (status : string * string * string) (cpu_per_minute : list (point V))
  (spike : point V) (pre_start post_end : instant) (all_sites : list site)
  (log_counts : log_counts_t) (tr : list string) :
  let r := attribute_and_report V fmt_2f ssm status cpu_per_minute spike
             pre_start post_end all_sites log_counts tr in
  snd r = tr \/
  exists path,
    snd r = tr ++ [fetch_cmd (strftime_access pre_start) (strftime_access post_end) path].
Proof.
  cbv zeta. unfold attribute_and_report.
  destruct (Spike_site (attribute log_counts)) as [name |]; [| left; reflexivity].
  destruct (lookup_log_path all_sites (Some name)) as [path |]; [| left; reflexivity].
  destruct (Py.truthy name && Py.truthy path)%bool; [| left; reflexivity].
  right. exists path. reflexivity.
Qed.

(** The commands of a cycle, branch by branch. *)
Lemma run_cycle_trace_shape
  (V : Type) (gt : V -> V -> bool) (fmt_2f : V -> string) (ssm : ssm_oracle)
  (matches : list (string * string)) (status : string * string * string)
  (cpu_per_minute : list (point V)) :
  let trace := snd (run_cycle V gt fmt_2f ssm matches status cpu_per_minute) in
  trace = [] \/
  trace = [ps_cmd] \/
  exists first rest tail,
    cpu_per_minute = first :: rest /\
    trace = ps_cmd
              :: count_cmds (map site_of_match matches)
                   (Timestamp (max_from V gt first rest))
              ++ tail /\
    (tail = [] \/ exists start_str end_str path, tail = [fetch_cmd start_str end_str path]).
Proof.
  cbv zeta. destruct cpu_per_minute as [| first rest]; [left; reflexivity |].
  destruct matches as [| m ms] eqn:Hm; [right; left; reflexivity |].
  right. right. rewrite <- Hm.
  assert (Hne : matches <> []) by (subst; discriminate).
  rewrite (run_cycle_analysis V gt fmt_2f ssm matches status first rest Hne).
  match goal with
  | |- context [attribute_and_report V fmt_2f ssm status ?c ?sp ?a ?b ?sites ?lc ?tr] =>
      destruct (attribute_and_report_trace V fmt_2f ssm status c sp a b sites lc tr)
        as [Ht | [path Ht]]; rewrite Ht
  end.
  - destruct (get_log_counts_spec ssm (map site_of_match matches)
                (Timestamp (max_from V gt first rest)) [ps_cmd]) as (Htr & _).
    rewrite Htr. exists first, rest, []. rewrite app_nil_r.
    split; [reflexivity | split; [reflexivity | left; reflexivity]].
  - destruct (get_log_counts_spec ssm (map site_of_match matches)
                (Timestamp (max_from V gt first rest)) [ps_cmd]) as (Htr & _).
    rewrite Htr. eexists first, rest, [_].
    split; [reflexivity | split].
    + cbn [app]. unfold count_cmds. rewrite <- !app_assoc. reflexivity.
    + right. eexists _, _, _. reflexivity.
Qed.

(** X8. Whatever its inputs, a cycle sends either nothing or the process
    listing first; every command it sends is the listing, a count filter or
    a fetch filter; and it sends at most two commands more than three times
    the number of matched process lines. *)
Theorem X8_cycle_commands_bounded
  (V : Type) (gt : V -> V -> bool) (fmt_2f : V -> string) (ssm : ssm_oracle)
  (matches : list (string * string)) (status : string * string * string)
  (cpu_per_minute : list (point V)) :
  let trace := snd (run_cycle V gt fmt_2f ssm matches status cpu_per_minute) in
  (trace = [] \/ exists tail, trace = ps_cmd :: tail) /\
  Forall engine_cmd trace /\
  (List.length trace <= 3 * List.length matches + 2)%nat.
Proof.
  cbv zeta.
  destruct (run_cycle_trace_shape V gt fmt_2f ssm matches status cpu_per_minute)
    as [Ht | [Ht | (first & rest & tail & _ & Ht & Htail)]]; rewrite Ht.
  - split; [left; reflexivity | split; [constructor | cbn; lia]].
  - split; [right; exists []; reflexivity | split].
    + constructor; [left; reflexivity | constructor].
    + cbn. lia.
  - split; [right; eexists; reflexivity | split].
    + constructor; [left; reflexivity |].
      apply Forall_app. split.
      * unfold count_cmds. rewrite !Forall_app. repeat split;
          apply Forall_forall; intros cmd Hin; apply in_map_iff in Hin as (s & <- & _);
          right; left; unfold count_cmd_of; eexists _, _, _; reflexivity.
      * destruct Htail as [-> | (a & b & p & ->)]; [constructor |].
        constructor; [| constructor]. right. right. exists a, b, p. reflexivity.
    + cbn [List.length]. rewrite length_app.
      assert (Hc : List.length (count_cmds (map site_of_match matches)
                      (Timestamp (max_from V gt first rest)))
                   = (3 * List.length matches)%nat).
      { unfold count_cmds. rewrite !length_app, !length_map. lia. }
      rewrite Hc. destruct Htail as [-> | (a & b & p & ->)]; cbn; lia.
Qed.

(** ** The detailed log fetch *)

Lemma lstrip_all_space (s : string) : all_space s = true -> Py.lstrip s = EmptyString.
Proof.
  induction s as [| c r IH]; cbn; [reflexivity |].
  intros H. apply andb_true_iff in H as [Hc Hr]. rewrite Hc. apply IH, Hr.
Qed.

Lemma truthy_app_l (a b : string) : Py.truthy a = true -> Py.truthy (a ++ b) = true.
Proof. destruct a; [discriminate | reflexivity]. Qed.

(** X9. [fetch_logs_window] sends one command, the fetch filter on the
    given path and bounds, and never returns an empty text: when the call
    raises it returns the error text, when the output is missing or is
    white space only it returns "No logs found in the window.", and
    otherwise the output without its surrounding white space. *)
Theorem X9_fetch_never_returns_empty
  (ssm : ssm_oracle) (log_path : string) (start_time end_time : instant)
  (tr : list string) :
  let cmd := fetch_cmd (strftime_access start_time) (strftime_access end_time) log_path in
  let r := fetch_logs_window ssm log_path start_time end_time tr in
  snd r = tr ++ [cmd] /\
  Py.truthy (fst r) = true /\
  (forall e, ssm (List.length tr) cmd = SsmRaised e ->
             fst r = ("Error fetching logs: " ++ e)%string) /\
  (ssm (List.length tr) cmd = SsmInvocation None -> fst r = no_logs_found) /\
  (forall out, ssm (List.length tr) cmd = SsmInvocation (Some out) ->
               all_space out = true -> fst r = no_logs_found) /\
  (forall out, ssm (List.length tr) cmd = SsmInvocation (Some out) ->
               Py.strip out <> EmptyString -> fst r = Py.strip out).
Proof.
  cbv zeta. unfold fetch_logs_window, send_command, bind, ret. cbn [fst snd].
  split; [reflexivity | split; [| split; [| split; [| split]]]].
  - destruct (ssm _ _) as [e | [out |]].
    + reflexivity.
    + destruct (Py.truthy (Py.strip out)) eqn:Ht; [exact Ht | reflexivity].
    + reflexivity.
  - intros e ->. reflexivity.
  - intros ->. reflexivity.
  - intros out -> Hsp. unfold Py.strip. rewrite (lstrip_all_space out Hsp). reflexivity.
  - intros out -> Hne. destruct (Py.strip out); [congruence | reflexivity].
Qed.

(** ** The fetched log and the counted log *)

Lemma nodup_names_no_later (sites : list site) (i : nat) (s : site) :
  NoDup (map site_name sites) ->
  nth_error sites i = Some s ->
  forall j s', (i < j)%nat -> nth_error sites j = Some s' ->
               site_name s' <> site_name s.
Proof.
  intros Hnd Hi j s' Hlt Hj Heq.
  assert (Hij : i = j).
  { apply (proj1 (NoDup_nth_error (map site_name sites)) Hnd).
    - rewrite length_map. apply nth_error_Some. congruence.
    - rewrite !nth_error_map, Hi, Hj. cbn. congruence. }
  lia.
Qed.

(** X10. When the discovered names are distinct and the attribution names
    a site, the log path that is looked up for the fetch is the path of the
    very site whose three count commands filled the cells that the
    attribution compared. *)
Theorem X10_fetched_log_is_counted_log
  (ssm : ssm_oracle) (sites : list site) (spike_time : instant)
  (tr : list string) (name : string) :
  NoDup (map site_name sites) ->
  Spike_site (attribute (fst (get_log_counts_for_sites ssm sites spike_time tr)))
  = Some name ->
  exists i s,
    nth_error sites i = Some s /\ site_name s = name /\
    lookup_log_path sites (Some name) = Some (access_log_path s) /\
    forall w,
      option_map (cell w)
        (dict_get (fst (get_log_counts_for_sites ssm sites spike_time tr)) name)
      = Some (count_at ssm (define_windows spike_time) w s
                (List.length tr + window_index w * List.length sites + i)).
Proof.
  intros Hnd Hsite.
  destruct (attributed_site_lookup ssm sites spike_time tr name Hsite)
    as (s & Hin & Hname & Hlookup).
  apply In_nth_error in Hin as [i Hi].
  exists i, s. repeat split; [exact Hi | exact Hname | exact Hlookup |].
  intros w. destruct (get_log_counts_spec ssm sites spike_time tr) as (_ & _ & Hcell).
  rewrite Hcell, initial_counts_get. subst name.
  rewrite (nth_error_site_name sites i s Hi). cbn [option_map].
  rewrite (window_value_last ssm (define_windows spike_time) w sites _ i s Hi
             (nodup_names_no_later sites i s Hnd Hi)).
  reflexivity.
Qed.

(** X10 at the scenario: X is attributed; its cells come from the commands
    numbered 1, 3 and 5, all on /logpath1, the path that is looked up. *)
Lemma X10_fetched_log_witness :
  exists i s,
    nth_error (map site_of_match scenario_matches) i = Some s /\
    site_name s = "X"%string /\
    lookup_log_path (map site_of_match scenario_matches) (Some "X"%string)
    = Some (access_log_path s) /\
    forall w,
      option_map (cell w)
        (dict_get (fst (get_log_counts_for_sites scenario_ssm
                          (map site_of_match scenario_matches) t1 [ps_cmd])) "X")
      = Some (count_at scenario_ssm (define_windows t1) w s
                (List.length [ps_cmd]
                 + window_index w * List.length (map site_of_match scenario_matches) + i)).
Proof.
  apply (X10_fetched_log_is_counted_log scenario_ssm
           (map site_of_match scenario_matches) t1 [ps_cmd] "X").
  - cbn. repeat constructor; cbn; intuition discriminate.
  - reflexivity.
Defined.

(** ** Reading back the output of [wc -l] *)

Ltac digit_cases d :=
  let H := fresh "H" in
  assert (H : d = 0 \/ d = 1 \/ d = 2 \/ d = 3 \/ d = 4 \/ d = 5 \/ d = 6 \/ d = 7
              \/ d = 8 \/ d = 9) by lia;
  repeat (destruct H as [H | H]; [subst d; try reflexivity |]); try subst d; try reflexivity.

Lemma digit_value_digit_char (d : Z) :
  0 <= d <= 9 -> digit_value (digit_char d) = Some d.
Proof. intros Hd. digit_cases d. Qed.

Lemma digit_char_plain (d : Z) :
  0 <= d <= 9 ->
  Py.is_space (digit_char d) = false /\
  Ascii.eqb (digit_char d) "-" = false /\
  Ascii.eqb (digit_char d) "+" = false.
Proof. intros Hd. digit_cases d; repeat split; reflexivity. Qed.

(** Parsing the digits that [nat_digits] writes in front of [acc] brings
    the parser to the number written, with [acc] still to read. *)
Lemma nat_digits_parse (fuel : nat) :
  forall (n : Z) (acc : string),
    0 <= n < 2 ^ Z.of_nat fuel ->
    Py.int_digits 0 (nat_digits fuel n acc) = Py.int_digits n acc.
Proof.
  induction fuel as [| f IH]; intros n acc Hn.
  - cbn in Hn. assert (n = 0) by lia. subst n. reflexivity.
  - cbn [nat_digits].
    assert (Hmod : 0 <= n mod 10 <= 9) by (pose proof (Z.mod_pos_bound n 10); lia).
    assert (Hstep : Py.int_digits (n / 10) (String (digit_char (n mod 10)) acc)
                    = Py.int_digits n acc).
    { cbn [Py.int_digits]. rewrite (digit_value_digit_char _ Hmod).
      f_equal. pose proof (Z.div_mod n 10). lia. }
    destruct (Z.eqb_spec (n / 10) 0) as [H0 | Hne].
    + rewrite <- Hstep, H0. reflexivity.
    + rewrite IH; [exact Hstep |].
      rewrite Nat2Z.inj_succ, Z.pow_succ_r in Hn by lia.
      split; [apply Z.div_pos; lia |].
      apply Z.div_lt_upper_bound; lia.
Qed.

Lemma nat_digits_head (fuel : nat) :
  forall (n : Z) (acc : string),
    exists d r, 0 <= d <= 9 /\ nat_digits (S fuel) n acc = String (digit_char d) r.
Proof.
  induction fuel as [| f IH]; intros n acc.
  - exists (n mod 10), acc. split; [pose proof (Z.mod_pos_bound n 10); lia |].
    cbn. destruct (n / 10 =? 0); reflexivity.
  - remember (S f) as f'. cbn [nat_digits]. destruct (n / 10 =? 0).
    + exists (n mod 10), acc. split; [pose proof (Z.mod_pos_bound n 10); lia | reflexivity].
    + subst f'. apply IH.
Qed.

Lemma nat_digits_no_space (fuel : nat) :
  forall (n : Z) (acc : string),
    no_space acc = true -> no_space (nat_digits fuel n acc) = true.
Proof.
  induction fuel as [| f IH]; intros n acc Hacc; [exact Hacc |].
  cbn [nat_digits].
  assert (Hd : no_space (String (digit_char (n mod 10)) acc) = true).
  { cbn [no_space]. rewrite Hacc.
    destruct (digit_char_plain (n mod 10)) as (Hs & _);
      [pose proof (Z.mod_pos_bound n 10); lia |].
    rewrite Hs. reflexivity. }
  destruct (n / 10 =? 0); [exact Hd | apply IH, Hd].
Qed.

Lemma rstrip_no_space (s : string) : no_space s = true -> Py.rstrip s = s.
Proof.
  induction s as [| c r IH]; cbn; [reflexivity |].
  intros H. apply andb_true_iff in H as [Hc Hr]. rewrite (IH Hr).
  destruct r; [| reflexivity].
  destruct (Py.is_space c); [discriminate | reflexivity].
Qed.

Lemma rstrip_all_space (w : string) : all_space w = true -> Py.rstrip w = EmptyString.
Proof.
  induction w as [| c r IH]; cbn; [reflexivity |].
  intros H. apply andb_true_iff in H as [Hc Hr]. rewrite (IH Hr), Hc. reflexivity.
Qed.

Lemma rstrip_app_space (s w : string) :
  all_space w = true -> Py.rstrip (s ++ w) = Py.rstrip s.
Proof.
  intros Hw. induction s as [| c r IH]; cbn.
  - apply rstrip_all_space, Hw.
  - rewrite IH. reflexivity.
Qed.

(** Stripping a text that starts with a non-space character, holds no
    white space, and is followed by white space gives the text. *)
Lemma strip_padded (s w : string) :
  no_space s = true -> all_space w = true -> Py.strip (s ++ w) = s.
Proof.
  intros Hs Hw. unfold Py.strip. destruct s as [| c r].
  - cbn. rewrite (lstrip_all_space w Hw). reflexivity.
  - cbn [append Py.lstrip]. cbn [no_space] in Hs.
    apply andb_true_iff in Hs as [Hc Hr].
    destruct (Py.is_space c) eqn:Hsp; [discriminate |].
    change (String c (r ++ w)) with (String c r ++ w)%string.
    rewrite rstrip_app_space by exact Hw.
    apply rstrip_no_space. cbn [no_space]. rewrite Hsp, Hr. reflexivity.
Qed.

Lemma py_str_int_no_space (n : Z) : no_space (py_str_int n) = true.
Proof.
  unfold py_str_int. destruct (n <? 0).
  - cbn [no_space]. rewrite nat_digits_no_space; reflexivity.
  - apply nat_digits_no_space. reflexivity.
Qed.

Lemma log2_fuel (n : Z) : 0 <= n -> 0 <= n < 2 ^ Z.of_nat (S (Z.to_nat (Z.log2 n))).
Proof.
  intros Hn. split; [exact Hn |].
  rewrite Nat2Z.inj_succ, Z2Nat.id by apply Z.log2_nonneg.
  destruct (Z.eq_dec n 0) as [-> | Hne]; [reflexivity |].
  apply Z.log2_spec. lia.
Qed.

Lemma int_unsigned_digits (n : Z) :
  0 <= n ->
  Py.int_unsigned (nat_digits (S (Z.to_nat (Z.log2 n))) n EmptyString) = Some n.
Proof.
  intros Hn.
  pose proof (nat_digits_parse _ n EmptyString (log2_fuel n Hn)) as Hparse.
  destruct (nat_digits_head (Z.to_nat (Z.log2 n)) n EmptyString) as (d & r & Hd & Heq).
  rewrite Heq in *. cbn [Py.int_unsigned]. cbn [Py.int_digits] in Hparse.
  rewrite (digit_value_digit_char d Hd) in *. cbn in Hparse. exact Hparse.
Qed.

Lemma digit_count_le_length (s : string) :
  (Py.digit_count s <= N.of_nat (String.length s))%N.
Proof.
  induction s as [| c r IH]; cbn [Py.digit_count String.length]; [reflexivity |].
  destruct (digit_value c); lia.
Qed.

(** A number below [10 ^ k] is written with at most [k] digits. *)
Lemma nat_digits_length (fuel : nat) :
  forall (n k : Z) (acc : string),
    1 <= k -> 0 <= n < 10 ^ k ->
    Z.of_nat (String.length (nat_digits fuel n acc))
    <= k + Z.of_nat (String.length acc).
Proof.
  induction fuel as [| f IH]; intros n k acc Hk Hn; [cbn; lia |].
  cbn [nat_digits]. destruct (Z.eqb_spec (n / 10) 0) as [H0 | Hne].
  - cbn [String.length]. lia.
  - assert (Hpow : 10 ^ k = 10 * 10 ^ (k - 1)).
    { replace k with (Z.succ (k - 1)) at 1 by lia. apply Z.pow_succ_r. lia. }
    assert (Hk2 : 2 <= k).
    { destruct (Z.eq_dec k 1) as [-> | ?]; [| lia].
      exfalso. apply Hne. apply Z.div_small. cbn in Hn. lia. }
    specialize (IH (n / 10) (k - 1) (String (digit_char (n mod 10)) acc)).
    cbn [String.length] in IH. rewrite Nat2Z.inj_succ in IH.
    assert (Hdiv : 0 <= n / 10 < 10 ^ (k - 1)).
    { split; [apply Z.div_pos; lia | apply Z.div_lt_upper_bound; lia]. }
    specialize (IH ltac:(lia) Hdiv). lia.
Qed.

Lemma py_str_int_digit_count_below (n k : Z) :
  1 <= k -> Z.abs n < 10 ^ k ->
  (Py.digit_count (py_str_int n) <= Z.to_N k)%N.
Proof.
  intros Hk Hn. remember (10 ^ k) as bound eqn:Hbound.
  unfold py_str_int. destruct (Z.ltb_spec n 0) as [Hneg | Hpos].
  - cbn [Py.digit_count]. change (digit_value "-") with (@None Z). cbn [N.add].
    etransitivity; [apply digit_count_le_length |].
    assert (Hrange : 0 <= - n < 10 ^ k) by (rewrite <- Hbound; lia).
    pose proof (nat_digits_length (S (Z.to_nat (Z.log2 (- n)))) (- n) k EmptyString
                  Hk Hrange) as Hlen.
    cbn [String.length] in Hlen. clear Hrange Hbound Hn. lia.
  - etransitivity; [apply digit_count_le_length |].
    assert (Hrange : 0 <= n < 10 ^ k) by (rewrite <- Hbound; lia).
    pose proof (nat_digits_length (S (Z.to_nat (Z.log2 n))) n k EmptyString
                  Hk Hrange) as Hlen.
    cbn [String.length] in Hlen. clear Hrange Hbound Hn. lia.
Qed.

Lemma py_str_int_digit_count (n : Z) :
  Z.abs n < 10 ^ 4300 ->
  (Py.max_str_digits <? Py.digit_count (py_str_int n))%N = false.
Proof.
  intros Hn. apply N.ltb_ge.
  apply (py_str_int_digit_count_below n 4300); [clear; lia | exact Hn].
Qed.

Lemma py_int_of_str (n : Z) :
  Z.abs n < 10 ^ 4300 -> Py.int (py_str_int n) = Some n.
Proof.
  intros Hn. unfold Py.int.
  replace (Py.strip (py_str_int n)) with (py_str_int n).
  2:{ symmetry. rewrite <- (string_app_nil_r (py_str_int n)) at 1.
      apply strip_padded; [apply py_str_int_no_space | reflexivity]. }
  pose proof (py_str_int_digit_count n Hn) as Hlimit. clear Hn.
  unfold py_str_int in *. destruct (Z.ltb_spec n 0) as [Hneg | Hpos].
  - rewrite Hlimit, Ascii.eqb_refl, int_unsigned_digits by lia. cbn. f_equal. lia.
  - destruct (nat_digits_head (Z.to_nat (Z.log2 n)) n EmptyString) as (d & r & Hd & Heq).
    pose proof (int_unsigned_digits n Hpos) as Hu. rewrite Heq in *.
    destruct (digit_char_plain d Hd) as (_ & Hminus & Hplus).
    rewrite Hlimit, Hminus, Hplus. exact Hu.
Qed.

Lemma rstrip_idempotent (s : string) : Py.rstrip (Py.rstrip s) = Py.rstrip s.
Proof.
  induction s as [| c r IH]; [reflexivity |].
  assert (Hstep : forall t, Py.rstrip (String c t) =
                            match Py.rstrip t with
                            | EmptyString =>
                                if Py.is_space c then EmptyString else String c EmptyString
                            | String c' r' => String c (String c' r')
                            end) by reflexivity.
  rewrite (Hstep r). destruct (Py.rstrip r) as [| c' r'] eqn:Hr.
  - destruct (Py.is_space c) eqn:Hc; [reflexivity |]. cbn. rewrite Hc. reflexivity.
  - rewrite Hstep, IH. reflexivity.
Qed.

Lemma strip_idempotent (s : string) : Py.strip (Py.strip s) = Py.strip s.
Proof.
  unfold Py.strip.
  assert (Hl : Py.lstrip (Py.rstrip (Py.lstrip s)) = Py.rstrip (Py.lstrip s)).
  { assert (Hhead : Py.lstrip s = EmptyString \/
                    exists c r, Py.lstrip s = String c r /\ Py.is_space c = false).
    { induction s as [| c r IH]; [left; reflexivity |].
      cbn [Py.lstrip]. destruct (Py.is_space c) eqn:Hc; [exact IH |].
      right. exists c, r. split; [reflexivity | exact Hc]. }
    destruct Hhead as [-> | (c & r & -> & Hc)]; [reflexivity |].
    cbn [Py.rstrip]. destruct (Py.rstrip r); rewrite ?Hc; cbn [Py.lstrip];
      rewrite Hc; reflexivity. }
  rewrite Hl. apply rstrip_idempotent.
Qed.

(** X11. An integer of fewer than 4301 digits that the host prints, alone
    or followed by white space such as the newline of [wc -l], is read back
    by [int] as that integer, and [count_logs] returns it unaltered; an
    output of more than 4300 digit characters makes [int] raise, and the
    count is 0. *)
Theorem X11_count_is_the_number_printed (n : Z) :
  Z.abs n < 10 ^ 4300 ->
  Py.int (py_str_int n) = Some n /\
  (forall w, all_space w = true ->
     count_of_output (SsmInvocation (Some (py_str_int n ++ w)%string)) = n) /\
  (forall (ssm : ssm_oracle) (s : site) (start_time end_time : instant)
          (tr : list string) (w : string),
     all_space w = true ->
     ssm (List.length tr)
         (count_cmd (strftime_access start_time) (strftime_access end_time)
            (access_log_path s))
     = SsmInvocation (Some (py_str_int n ++ w)%string) ->
     fst (count_logs ssm s start_time end_time tr) = n) /\
  (forall out,
     (Py.max_str_digits < Py.digit_count (Py.strip out))%N ->
     count_of_output (SsmInvocation (Some out)) = 0).
Proof.
  intros Hn.
  assert (Hcount : forall w, all_space w = true ->
            count_of_output (SsmInvocation (Some (py_str_int n ++ w)%string)) = n).
  { intros w Hw. unfold count_of_output.
    rewrite (strip_padded _ w (py_str_int_no_space n) Hw), (py_int_of_str n Hn).
    destruct (Py.truthy (py_str_int n)) eqn:Ht; [reflexivity |].
    pose proof (py_int_of_str n Hn) as Hi.
    destruct (py_str_int n); [discriminate | discriminate]. }
  split; [apply py_int_of_str, Hn | split; [exact Hcount | split]].
  - intros ssm s start_time end_time tr w Hw Hout.
    unfold count_logs, send_command, bind, ret. cbn [fst]. rewrite Hout.
    apply Hcount, Hw.
  - intros out Hlong. unfold count_of_output.
    destruct (Py.truthy (Py.strip out)); [| reflexivity].
    unfold Py.int. rewrite strip_idempotent.
    destruct (Py.strip out) as [| c r]; [reflexivity |].
    apply N.ltb_lt in Hlong. rewrite Hlong. reflexivity.
Qed.

(** X11 for the count 40 followed by a newline. *)
Lemma X11_count_witness :
  Py.int (py_str_int 40) = Some 40 /\
  count_of_output (SsmInvocation (Some (py_str_int 40 ++ nl)%string)) = 40.
Proof.
  destruct (X11_count_is_the_number_printed 40) as (Hint & Hcount & _).
  - apply Z.lt_le_trans with (10 ^ 2); [reflexivity |].
    apply Z.pow_le_mono_r; lia.
  - split; [exact Hint | apply Hcount; reflexivity].
Defined.

(** ** The instance status *)

(** X12. [get_ec2_status] reports a state or a health status other than
    "unknown" only when both API calls returned and the first reservation
    holds an instance.  It returns "unknown" three times when the first call
    raises, returns no reservation, or returns a first reservation without
    instance, and also when the second call raises: the state read by the
    first call is then dropped with the rest.  When the second call returns
    no entry, as for an instance that is not running, the state of the first
    instance is kept and both health statuses are "unknown"; otherwise the
    result is that state with the two statuses of the first entry. *)
Theorem X12_status_unknown_on_any_failure
  (describe_instances : api_answer (list (list string)))
  (describe_instance_status : api_answer (list (string * string))) :
  let r := get_ec2_status describe_instances describe_instance_status in
  (r <> (unknown, unknown, unknown) ->
   exists state instances reservations entries,
     describe_instances = ApiReturned ((state :: instances) :: reservations) /\
     describe_instance_status = ApiReturned entries /\
     fst (fst r) = state) /\
  (describe_instance_status = ApiRaised -> r = (unknown, unknown, unknown)) /\
  (describe_instances = ApiRaised -> r = (unknown, unknown, unknown)) /\
  (describe_instances = ApiReturned [] -> r = (unknown, unknown, unknown)) /\
  (forall reservations,
     describe_instances = ApiReturned ([] :: reservations) ->
     r = (unknown, unknown, unknown)) /\
  (forall state instances reservations,
     describe_instances = ApiReturned ((state :: instances) :: reservations) ->
     describe_instance_status = ApiReturned [] ->
     r = (state, unknown, unknown)) /\
  (forall state instances reservations system_status instance_status entries,
     describe_instances = ApiReturned ((state :: instances) :: reservations) ->
     describe_instance_status
     = ApiReturned ((system_status, instance_status) :: entries) ->
     r = (state, system_status, instance_status)).
Proof.
  cbv zeta. split; [| split; [| split; [| split; [| split; [| split]]]]].
  - destruct describe_instances as [| [| [| state instances] reservations]];
      cbn; try congruence.
    destruct describe_instance_status as [| [| [sy ins] entries]]; cbn; try congruence;
      intros _; eexists _, _, _, _; repeat split.
  - intros ->. destruct describe_instances as [| [| [| state instances] reservations]];
      reflexivity.
  - intros ->. reflexivity.
  - intros ->. reflexivity.
  - intros reservations ->. reflexivity.
  - intros state instances reservations -> ->. reflexivity.
  - intros state instances reservations sy ins entries -> ->. reflexivity.
Qed.

(** ** The metric series *)
Section MetricSeries.

Variable V : Type.

Lemma insert_by_timestamp_perm (x : datapoint V) (l : list (datapoint V)) :
  Permutation (x :: l) (insert_by_timestamp V x l).
Proof.
  induction l as [| y r IH]; cbn; [reflexivity |].
  destruct (dp_Timestamp x <? dp_Timestamp y); [reflexivity |].
  rewrite perm_swap. constructor. exact IH.
Qed.

Lemma sorted_by_timestamp_perm_gen (l acc : list (datapoint V)) :
  Permutation (acc ++ l) (fold_left (fun acc x => insert_by_timestamp V x acc) l acc).
Proof.
  revert acc. induction l as [| x l IH]; intros acc; cbn [fold_left].
  - rewrite app_nil_r. reflexivity.
  - rewrite <- IH. rewrite <- Permutation_middle.
    change (x :: acc ++ l) with ((x :: acc) ++ l).
    apply Permutation_app_tail, insert_by_timestamp_perm.
Qed.

Lemma insert_by_timestamp_sorted (x : datapoint V) (l : list (datapoint V)) :
  StronglySorted (dp_earlier V) l ->
  StronglySorted (dp_earlier V) (insert_by_timestamp V x l).
Proof.
  induction l as [| y r IH]; intros Hs; cbn.
  - repeat constructor.
  - apply StronglySorted_inv in Hs as [Hr Hy].
    destruct (Z.ltb_spec (dp_Timestamp x) (dp_Timestamp y)) as [Hlt | Hge].
    + constructor; [constructor; assumption |].
      constructor; [unfold dp_earlier; lia |].
      eapply Forall_impl; [| exact Hy]. unfold dp_earlier. intros z Hz. lia.
    + constructor; [apply IH, Hr |].
      apply (Permutation_Forall (insert_by_timestamp_perm x r)).
      constructor; [unfold dp_earlier; lia | exact Hy].
Qed.

Lemma sorted_by_timestamp_sorted_gen (l acc : list (datapoint V)) :
  StronglySorted (dp_earlier V) acc ->
  StronglySorted (dp_earlier V)
    (fold_left (fun acc x => insert_by_timestamp V x acc) l acc).
Proof.
  revert acc. induction l as [| x l IH]; intros acc Hs; cbn [fold_left]; [exact Hs |].
  apply IH, insert_by_timestamp_sorted, Hs.
Qed.

Lemma filter_later_nil (t : instant) (y : datapoint V) (r : list (datapoint V)) :
  t < dp_Timestamp y -> Forall (dp_earlier V y) r ->
  filter (fun dp => dp_Timestamp dp =? t) r = [].
Proof.
  intros Hlt Hy. induction r as [| z r IHr]; [reflexivity |].
  cbn [filter]. pose proof (Forall_inv Hy) as Hz. unfold dp_earlier in Hz.
  destruct (Z.eqb_spec (dp_Timestamp z) t); [lia |].
  apply IHr. exact (Forall_inv_tail Hy).
Qed.

(** Inserting into a sorted list puts the new element behind the elements
    of the same timestamp. *)
Lemma insert_by_timestamp_stable (t : instant) (x : datapoint V)
  (l : list (datapoint V)) :
  StronglySorted (dp_earlier V) l ->
  filter (fun dp => dp_Timestamp dp =? t) (insert_by_timestamp V x l)
  = filter (fun dp => dp_Timestamp dp =? t) l
      ++ (if dp_Timestamp x =? t then [x] else []).
Proof.
  induction l as [| y r IH]; intros Hs; cbn [insert_by_timestamp filter].
  - destruct (dp_Timestamp x =? t); reflexivity.
  - apply StronglySorted_inv in Hs as [Hr Hy].
    destruct (Z.ltb_spec (dp_Timestamp x) (dp_Timestamp y)) as [Hlt | Hge].
    + cbn [filter]. destruct (Z.eqb_spec (dp_Timestamp x) t) as [Hx | Hx].
      * rewrite (filter_later_nil t y r) by (assumption || lia).
        destruct (Z.eqb_spec (dp_Timestamp y) t); [lia | reflexivity].
      * rewrite app_nil_r. reflexivity.
    + cbn [filter]. rewrite (IH Hr).
      destruct (dp_Timestamp y =? t); reflexivity.
Qed.

Lemma sorted_by_timestamp_stable_gen (t : instant) (l acc : list (datapoint V)) :
  StronglySorted (dp_earlier V) acc ->
  filter (fun dp => dp_Timestamp dp =? t)
         (fold_left (fun acc x => insert_by_timestamp V x acc) l acc)
  = filter (fun dp => dp_Timestamp dp =? t) acc
      ++ filter (fun dp => dp_Timestamp dp =? t) l.
Proof.
  revert acc. induction l as [| x l IH]; intros acc Hs; cbn [fold_left filter].
  - rewrite app_nil_r. reflexivity.
  - rewrite IH by (apply insert_by_timestamp_sorted, Hs).
    rewrite (insert_by_timestamp_stable t x acc Hs), <- app_assoc.
    destruct (dp_Timestamp x =? t); reflexivity.
Qed.

Lemma filter_map_point (t : instant) (l : list (datapoint V)) :
  filter (fun p : point V => Timestamp p =? t) (map (point_of_datapoint V) l)
  = map (point_of_datapoint V) (filter (fun dp => dp_Timestamp dp =? t) l).
Proof.
  induction l as [| x l IH]; cbn; [reflexivity |].
  destruct (dp_Timestamp x =? t); cbn; rewrite IH; reflexivity.
Qed.

Lemma map_point_sorted (l : list (datapoint V)) :
  StronglySorted (dp_earlier V) l ->
  StronglySorted (earlier V) (map (point_of_datapoint V) l).
Proof.
  induction 1 as [| a l Hl IH Ha]; cbn; constructor; [exact IH |].
  apply Forall_map. exact Ha.
Qed.

Lemma get_cpu_per_minute_sorted (datapoints : list (datapoint V)) :
  StronglySorted (earlier V) (get_cpu_per_minute V (ApiReturned (Some datapoints))).
Proof.
  cbn. apply map_point_sorted.
  apply (sorted_by_timestamp_sorted_gen datapoints [] (SSorted_nil _)).
Qed.

(** X13. [get_cpu_per_minute] returns the datapoints of the answer, each
    once, in ascending order of timestamp, and keeps datapoints of the same
    timestamp in the order of the answer; when the call raises, or the
    answer has no datapoints, it returns the empty series. *)
Theorem X13_series_sorted_stable (datapoints : list (datapoint V)) :
  let series := get_cpu_per_minute V (ApiReturned (Some datapoints)) in
  StronglySorted (earlier V) series /\
  Permutation (map (point_of_datapoint V) datapoints) series /\
  (forall t,
     filter (fun p : point V => Timestamp p =? t) series
     = filter (fun p : point V => Timestamp p =? t)
         (map (point_of_datapoint V) datapoints)) /\
  get_cpu_per_minute V ApiRaised = [] /\
  get_cpu_per_minute V (ApiReturned None) = [] /\
  get_cpu_per_minute V (ApiReturned (Some [])) = [].
Proof.
  cbv zeta. split; [apply get_cpu_per_minute_sorted | split; [| split]].
  - cbn. apply Permutation_map.
    apply (sorted_by_timestamp_perm_gen datapoints []).
  - intros t. cbn. rewrite !filter_map_point. f_equal.
    apply (sorted_by_timestamp_stable_gen t datapoints [] (SSorted_nil _)).
  - repeat split.
Qed.

End MetricSeries.

(** ** The spike on the fetched series *)
Section SpikeOnSeries.

Variable V : Type.
Variables gt le : V -> V -> bool.
Hypothesis gt_not_le : forall a b, gt a b = negb (le a b).
Hypothesis le_total : forall a b, le a b = true \/ le b a = true.
Hypothesis le_trans : forall a b c, le a b = true -> le b c = true -> le a c = true.

Lemma sorted_after (m : point V) (l1 l2 : list (point V)) :
  StronglySorted (earlier V) (l1 ++ m :: l2) -> Forall (earlier V m) l2.
Proof.
  induction l1 as [| x l1 IH]; cbn; intros Hs; apply StronglySorted_inv in Hs as [Hr Hx].
  - exact Hx.
  - apply IH, Hr.
Qed.

(** X14. On the series that [get_cpu_per_minute] returns for a non-empty
    answer, the detected spike is a point of the series with the greatest
    CPU value, and among the points with that value it is one with the
    earliest timestamp: of several equal peaks the first in time is
    reported, in whatever order CloudWatch listed them. *)
Theorem X14_spike_is_earliest_peak (datapoints : list (datapoint V)) :
  datapoints <> [] ->
  let series := get_cpu_per_minute V (ApiReturned (Some datapoints)) in
  exists spike,
    detect_spike V gt series = Some spike /\
    In spike series /\
    (forall q, In q series -> le (CPU q) (CPU spike) = true) /\
    (forall q, In q series -> le (CPU spike) (CPU q) = true ->
               Timestamp spike <= Timestamp q).
Proof.
  intros Hne series.
  pose proof (get_cpu_per_minute_sorted V datapoints) as Hsorted.
  fold series in Hsorted.
  assert (Hlen : List.length series = List.length datapoints).
  { unfold series. cbn. rewrite length_map.
    symmetry. apply Permutation_length.
    apply (sorted_by_timestamp_perm_gen V datapoints []). }
  destruct series as [| first rest] eqn:Hseries.
  { destruct datapoints; [congruence | discriminate]. }
  destruct (max_from_split V gt le gt_not_le le_total le_trans rest first)
    as (l1 & l2 & Heq & Hbefore & Hafter).
  exists (max_from V gt first rest). cbn [detect_spike].
  rewrite Heq in Hsorted.
  pose proof (sorted_after _ _ _ Hsorted) as Hlater. rewrite Forall_forall in Hlater.
  split; [reflexivity | split; [| split]].
  - rewrite Heq at 1. apply in_or_app. right. left. reflexivity.
  - intros q Hq. rewrite Heq in Hq. apply in_app_or in Hq as [Hq | [Hq | Hq]].
    + apply (gt_le_weak V gt le gt_not_le le_total), Hbefore, Hq.
    + subst q. destruct (le_total (CPU (max_from V gt first rest))
                                  (CPU (max_from V gt first rest))); assumption.
    + apply Hafter, Hq.
  - intros q Hq Htie. rewrite Heq in Hq. apply in_app_or in Hq as [Hq | [Hq | Hq]].
    + specialize (Hbefore q Hq). rewrite gt_not_le, Htie in Hbefore. discriminate.
    + subst q. lia.
    + apply Hlater, Hq.
Qed.

End SpikeOnSeries.

(** X14 on datapoints listed out of order, with the peak value 85 at [t1]
    and at [t1 + 60]: the spike is the one at [t1]. *)
Lemma X14_earliest_peak_witness :
  exists spike,
    detect_spike Z Z.gtb (get_cpu_per_minute Z (ApiReturned (Some unsorted_datapoints)))
    = Some spike /\
    In spike (get_cpu_per_minute Z (ApiReturned (Some unsorted_datapoints))) /\
    (forall q, In q (get_cpu_per_minute Z (ApiReturned (Some unsorted_datapoints))) ->
               Z.leb (CPU q) (CPU spike) = true) /\
    (forall q, In q (get_cpu_per_minute Z (ApiReturned (Some unsorted_datapoints))) ->
               Z.leb (CPU spike) (CPU q) = true -> Timestamp spike <= Timestamp q).
Proof.
  apply (X14_spike_is_earliest_peak Z Z.gtb Z.leb).
  - intros a b. rewrite Z.gtb_ltb, Z.ltb_antisym. reflexivity.
  - intros a b. rewrite !Z.leb_le. lia.
  - intros a b c. rewrite !Z.leb_le. lia.
  - discriminate.
Defined.

Example spike_of_unsorted_datapoints :
  detect_spike Z Z.gtb (get_cpu_per_minute Z (ApiReturned (Some unsorted_datapoints)))
  = Some {| Timestamp := t1; CPU := 85 |}.
Proof. reflexivity. Qed.

(** ** The stamp and its order *)

Lemma all_below_spec (f : Z -> bool) (n : N) :
  all_below f n = true -> forall z, 0 <= z < Z.of_N n -> f z = true.
Proof.
  unfold all_below.
  apply (N.iter_ind _ (fun st : Z * bool => (fst st + 1, (snd st && f (fst st))%bool))
           (0, true)
           (fun k st => fst st = Z.of_N k /\
                        (snd st = true -> forall z, 0 <= z < Z.of_N k -> f z = true))).
  - split; [reflexivity | intros _ z Hz; cbn in Hz; lia].
  - intros m [i ok] [Hi Hok]. cbn [fst snd] in *. subst i.
    rewrite N2Z.inj_succ. split; [lia |].
    intros Hand z Hz. apply andb_true_iff in Hand as [Hok' Hf].
    destruct (Z.eq_dec z (Z.of_N m)) as [-> | Hne]; [exact Hf |].
    apply Hok; [exact Hok' | lia].
Qed.

Lemma pad2_two_digits (n : Z) : 0 <= n < 100 -> pad_int 2 n = two_digits n.
Proof.
  intros Hn. apply String.eqb_eq.
  apply (all_below_spec (fun n => String.eqb (pad_int 2 n) (two_digits n)) 100);
    [vm_compute; reflexivity | exact Hn].
Qed.

Lemma pad4_length (y : Z) : 1000 <= y < 10000 -> String.length (pad_int 4 y) = 4%nat.
Proof.
  intros Hy. apply Nat.eqb_eq.
  pose proof (all_below_spec
                (fun y => (y <? 1000) || Nat.eqb (String.length (pad_int 4 y)) 4)%bool
                10000) as H.
  specialize (H ltac:(vm_compute; reflexivity) y ltac:(lia)).
  apply orb_true_iff in H as [H | H]; [apply Z.ltb_lt in H; lia | exact H].
Qed.

Lemma string_length_app (a b : string) :
  String.length (a ++ b) = (String.length a + String.length b)%nat.
Proof. induction a as [| c a IH]; cbn; [reflexivity | rewrite IH; reflexivity]. Qed.

Lemma strftime_split (t : instant) :
  strftime_access t = (date_str (t / 86400) ++ ":" ++ tod_str (t mod 86400))%string.
Proof.
  unfold strftime_access, date_str, tod_str, hour, minute, second.
  destruct (civil_from_days (t / 86400)) as [[y m] d].
  replace ((t mod 86400) mod 3600) with (t mod 3600)
    by (Z.to_euclidean_division_equations; lia).
  replace ((t mod 86400) mod 60) with (t mod 60)
    by (Z.to_euclidean_division_equations; lia).
  rewrite !string_app_assoc. reflexivity.
Qed.

Lemma civil_fields_bound (days : Z) :
  0 <= days < 2777778 ->
  let '(y, m, d) := civil_from_days days in
  1000 <= y < 10000 /\ 1 <= m <= 12 /\ 1 <= d <= 31.
Proof.
  intros Hd. unfold civil_from_days. cbv zeta.
  set (z := days + 719468).
  set (era := z / 146097).
  set (doe := z - era * 146097).
  assert (Hera : 4 <= era <= 23) by (unfold era, z; Z.to_euclidean_division_equations; lia).
  assert (Hdoe : 0 <= doe < 146097)
    by (unfold doe, era; Z.to_euclidean_division_equations; lia).
  clearbody doe era. clear z.
  set (yoe := (doe - doe / 1460 + doe / 36524 - doe / 146096) / 365).
  set (doy := doe - (365 * yoe + yoe / 4 - yoe / 100)).
  assert (Hy : 0 <= yoe <= 399 /\ 0 <= doy <= 365)
    by (unfold doy, yoe; Z.to_euclidean_division_equations; lia).
  clearbody doy yoe.
  set (mp := (5 * doy + 2) / 153).
  assert (Hmp : 0 <= mp <= 11 /\ 1 <= doy - (153 * mp + 2) / 5 + 1 <= 31)
    by (unfold mp; Z.to_euclidean_division_equations; lia).
  clearbody mp.
  cbv beta iota. destruct (Z.ltb_spec mp 10);
    match goal with |- context [?a <=? 2] => destruct (Z.leb_spec a 2) end; lia.
Qed.

Lemma date_str_length (days : Z) :
  0 <= days < 2777778 -> String.length (date_str days) = 11%nat.
Proof.
  intros Hd. pose proof (civil_fields_bound days Hd) as Hb. unfold date_str.
  destruct (civil_from_days days) as [[y m] d]. destruct Hb as (Hy & Hm & Hday).
  rewrite !string_length_app, pad4_length by exact Hy.
  rewrite pad2_two_digits by lia.
  assert (Hmon : String.length (nth (Z.to_nat (m - 1)) month_abbr EmptyString) = 3%nat).
  { assert (Hc : m = 1 \/ m = 2 \/ m = 3 \/ m = 4 \/ m = 5 \/ m = 6 \/ m = 7 \/ m = 8
                 \/ m = 9 \/ m = 10 \/ m = 11 \/ m = 12) by lia.
    repeat (destruct Hc as [Hc | Hc]; [subst m; reflexivity |]). subst m. reflexivity. }
  rewrite Hmon. reflexivity.
Qed.

Lemma tod_str_digits (s : Z) :
  0 <= s < 86400 ->
  tod_str s = (two_digits (s / 3600) ++ ":" ++ two_digits (s mod 3600 / 60)
                 ++ ":" ++ two_digits (s mod 60))%string.
Proof.
  intros Hs. unfold tod_str.
  rewrite !pad2_two_digits by (Z.to_euclidean_division_equations; lia).
  reflexivity.
Qed.

Lemma digit_char_compare (a b : Z) :
  0 <= a <= 9 -> 0 <= b <= 9 ->
  Ascii.compare (digit_char a) (digit_char b) = (a ?= b).
Proof. intros Ha Hb. digit_cases a; digit_cases b. Qed.

Lemma ascii_compare_refl (c : ascii) : Ascii.compare c c = Eq.
Proof. unfold Ascii.compare. apply N.compare_refl. Qed.

Lemma string_compare_app (p x y : string) :
  String.compare (p ++ x) (p ++ y) = String.compare x y.
Proof.
  induction p as [| c p IH]; cbn; [reflexivity |].
  rewrite ascii_compare_refl. exact IH.
Qed.

Lemma substring_all (s : string) (n : nat) :
  (String.length s <= n)%nat -> substring 0 n s = s.
Proof.
  revert n. induction s as [| c s IH]; intros n Hn.
  - destruct n; reflexivity.
  - destruct n; cbn in *; [lia |]. rewrite IH by lia. reflexivity.
Qed.

Lemma substring_app (p x : string) (k : nat) :
  substring 0 (String.length p + k) (p ++ x) = (p ++ substring 0 k x)%string.
Proof.
  induction p as [| c p IH]; cbn; [reflexivity |]. rewrite IH. reflexivity.
Qed.

(** One step of a comparison digit by digit: the digits differ and the
    goal follows by arithmetic, or they are equal and the next digit
    decides. *)
Ltac euclid := Z.to_euclidean_division_equations; lia.

Ltac bool_leaf :=
  cbv iota;
  match goal with
  | |- _ = (?x ?= ?y) =>
      symmetry;
      first [apply Z.compare_lt_iff; euclid | apply Z.compare_gt_iff; euclid
            | apply Z.compare_eq_iff; euclid]
  | |- _ = (?x <? ?y) =>
      destruct (Z.ltb_spec x y); first [reflexivity | exfalso; euclid]
  | |- _ = (?x <=? ?y) =>
      destruct (Z.leb_spec x y); first [reflexivity | exfalso; euclid]
  end.

Ltac digit_step x y :=
  destruct (Z.compare_spec x y); cbv iota; [| solve [bool_leaf] | solve [bool_leaf]].

Ltac all_digit_steps a b :=
  digit_step (a / 3600 / 10) (b / 3600 / 10);
  digit_step ((a / 3600) mod 10) ((b / 3600) mod 10);
  digit_step (a mod 3600 / 60 / 10) (b mod 3600 / 60 / 10);
  digit_step ((a mod 3600 / 60) mod 10) ((b mod 3600 / 60) mod 10);
  digit_step (a mod 60 / 10) (b mod 60 / 10).

Ltac digit_bounds := split; euclid.

Lemma tod_str_chars (s : Z) :
  0 <= s < 86400 ->
  tod_str s =
  String (digit_char (s / 3600 / 10)) (String (digit_char ((s / 3600) mod 10))
    (String ":" (String (digit_char (s mod 3600 / 60 / 10))
      (String (digit_char ((s mod 3600 / 60) mod 10))
        (String ":" (String (digit_char (s mod 60 / 10))
          (String (digit_char ((s mod 60) mod 10)) EmptyString))))))).
Proof. intros Hs. rewrite tod_str_digits by exact Hs. reflexivity. Qed.

(** Stamps of the same day are ordered as their instants. *)
Lemma tod_str_compare (a b : Z) :
  0 <= a < 86400 -> 0 <= b < 86400 ->
  String.compare (tod_str a) (tod_str b) = (a ?= b).
Proof.
  intros Ha Hb. rewrite !tod_str_chars by assumption. cbn [String.compare].
  rewrite !digit_char_compare by euclid.
  rewrite !ascii_compare_refl.
  all_digit_steps a b.
  digit_step ((a mod 60) mod 10) ((b mod 60) mod 10).
  bool_leaf.
Qed.

(** The stamp cut to its first seven characters of time, as [count_logs]
    cuts it, against a whole stamp: the tens of seconds decide, and on equal
    tens the cut stamp is the smaller. *)
Lemma tod_str_leb_cut (a b : Z) :
  0 <= a < 86400 -> 0 <= b < 86400 ->
  String.leb (tod_str a) (substring 0 7 (tod_str b)) = (a / 10 <? b / 10).
Proof.
  intros Ha Hb. rewrite !tod_str_chars by assumption.
  unfold String.leb. cbn [String.compare substring].
  rewrite !digit_char_compare by euclid.
  rewrite !ascii_compare_refl.
  all_digit_steps a b.
  bool_leaf.
Qed.

Lemma tod_str_cut_leb (a b : Z) :
  0 <= a < 86400 -> 0 <= b < 86400 ->
  String.leb (substring 0 7 (tod_str a)) (tod_str b) = (a / 10 <=? b / 10).
Proof.
  intros Ha Hb. rewrite !tod_str_chars by assumption.
  unfold String.leb. cbn [String.compare substring].
  rewrite !digit_char_compare by euclid.
  rewrite !ascii_compare_refl.
  all_digit_steps a b.
  bool_leaf.
Qed.

Lemma tod_str_length (s : Z) : 0 <= s < 86400 -> String.length (tod_str s) = 8%nat.
Proof. intros Hs. rewrite tod_str_chars by exact Hs. reflexivity. Qed.

Lemma four_digit_year_day (t : instant) :
  four_digit_year t -> 0 <= t / 86400 < 2777778 /\ 0 <= t mod 86400 < 86400.
Proof. unfold four_digit_year. intros Ht. split; euclid. Qed.

Lemma leb_of_compare (a b : Z) :
  (if a ?= b is Gt then false else true) = (a <=? b).
Proof. unfold Z.leb. destruct (a ?= b); reflexivity. Qed.

(** The filter of [count_logs] ([substr] of length 19), on a line of the
    same day as the bounds. *)
Lemma in_window_19_same_day (start_time end_time t : instant) (line : string) :
  four_digit_year t ->
  start_time / 86400 = t / 86400 -> end_time / 86400 = t / 86400 ->
  Awk.field 4 line = ("[" ++ strftime_access t)%string ->
  Awk.in_window 19 (strftime_access start_time) (strftime_access end_time) line
  = ((start_time / 10 <? t / 10) && (t / 10 <=? end_time / 10))%bool.
Proof.
  intros Ht Hs He Hfield.
  destruct (four_digit_year_day t Ht) as [Hday Htod].
  unfold Awk.in_window, Awk.substr. rewrite Hfield.
  change (substring (2 - 1) 19 ("[" ++ strftime_access t))
    with (substring 0 19 (strftime_access t)).
  rewrite !strftime_split, Hs, He.
  replace 19%nat with (String.length (date_str (t / 86400)) + 8)%nat
    by (rewrite date_str_length by assumption; reflexivity).
  rewrite substring_app.
  change (substring 0 8 (":" ++ tod_str (t mod 86400)))
    with (":" ++ substring 0 7 (tod_str (t mod 86400)))%string.
  unfold String.leb. rewrite !string_compare_app.
  fold (String.leb (tod_str (start_time mod 86400))
          (substring 0 7 (tod_str (t mod 86400)))).
  fold (String.leb (substring 0 7 (tod_str (t mod 86400)))
          (tod_str (end_time mod 86400))).
  rewrite tod_str_leb_cut, tod_str_cut_leb by (assumption || euclid).
  destruct (Z.ltb_spec (start_time mod 86400 / 10) (t mod 86400 / 10));
    destruct (Z.leb_spec (t mod 86400 / 10) (end_time mod 86400 / 10));
    destruct (Z.ltb_spec (start_time / 10) (t / 10));
    destruct (Z.leb_spec (t / 10) (end_time / 10));
    first [reflexivity | exfalso; euclid].
Qed.

(** X15. The fetch filter is exact within a day: for a line whose fourth
    field is the bracket and the stamp of an instant [t], and bounds on the
    same calendar day as [t], the filter of [fetch_logs_window] prints the
    line exactly when [t] lies in the closed window. *)
Theorem X15_fetch_filter_exact_within_a_day
  (start_time end_time t : instant) (line : string) :
  four_digit_year t ->
  start_time / 86400 = t / 86400 -> end_time / 86400 = t / 86400 ->
  Awk.field 4 line = ("[" ++ strftime_access t)%string ->
  Awk.in_window 20 (strftime_access start_time) (strftime_access end_time) line
  = ((start_time <=? t) && (t <=? end_time))%bool.
Proof.
  intros Ht Hs He Hfield.
  destruct (four_digit_year_day t Ht) as [Hday Htod].
  unfold Awk.in_window, Awk.substr. rewrite Hfield.
  change (substring (2 - 1) 20 ("[" ++ strftime_access t))
    with (substring 0 20 (strftime_access t)).
  rewrite !strftime_split, Hs, He.
  rewrite substring_all
    by (rewrite !string_length_app, date_str_length, tod_str_length by assumption;
        cbn; lia).
  unfold String.leb. rewrite !string_compare_app.
  rewrite !tod_str_compare by (assumption || euclid).
  rewrite !leb_of_compare.
  destruct (Z.leb_spec (start_time mod 86400) (t mod 86400));
    destruct (Z.leb_spec (t mod 86400) (end_time mod 86400));
    destruct (Z.leb_spec start_time t); destruct (Z.leb_spec t end_time);
    first [reflexivity | exfalso; euclid].
Qed.

(** X15 on a line stamped five minutes after [t1], fetched between one and
    ten minutes after [t1]. *)
Lemma X15_fetch_filter_witness :
  Awk.in_window 20 (strftime_access (t1 + 60)) (strftime_access (t1 + 600))
    (access_line (t1 + 300))
  = ((t1 + 60 <=? t1 + 300) && (t1 + 300 <=? t1 + 600))%bool.
Proof.
  apply (X15_fetch_filter_exact_within_a_day (t1 + 60) (t1 + 600) (t1 + 300)).
  - unfold four_digit_year, t1. lia.
  - reflexivity.
  - reflexivity.
  - reflexivity.
Defined.

(** X16. The count filter works on tens of seconds: for a line whose fourth
    field is the bracket and the stamp of [t], and bounds on the same
    calendar day as [t], the filter of [count_logs] prints the line exactly
    when the ten-second slot of [t] comes strictly after the slot of the
    start and not after the slot of the end. *)
Theorem X16_count_filter_ten_second_slots
  (start_time end_time t : instant) (line : string) :
  four_digit_year t ->
  start_time / 86400 = t / 86400 -> end_time / 86400 = t / 86400 ->
  Awk.field 4 line = ("[" ++ strftime_access t)%string ->
  Awk.in_window 19 (strftime_access start_time) (strftime_access end_time) line
  = ((start_time / 10 <? t / 10) && (t / 10 <=? end_time / 10))%bool.
Proof. apply in_window_19_same_day. Qed.

(** X16 on a line stamped five seconds after the start of the window. *)
Lemma X16_count_filter_witness :
  Awk.in_window 19 (strftime_access t1) (strftime_access (t1 + 59))
    (access_line (t1 + 5))
  = ((t1 / 10 <? (t1 + 5) / 10) && ((t1 + 5) / 10 <=? (t1 + 59) / 10))%bool.
Proof.
  apply (X16_count_filter_ten_second_slots t1 (t1 + 59) (t1 + 5)).
  - unfold four_digit_year, t1. lia.
  - reflexivity.
  - reflexivity.
  - reflexivity.
Defined.

(** X17. What the three count commands count.  For a spike time on a full
    minute and a line of the same calendar day as the bounds of the window,
    the command of the window before the spike counts the line exactly when
    its instant lies in [spike_time - 590, spike_time - 1], the command of
    the spike window when it lies in [spike_time + 10, spike_time + 59], and
    the command of the window after the spike when it lies in
    [spike_time + 70, spike_time + 669]: the first ten seconds of every
    window are left out and nine seconds are added at the very end. *)
Theorem X17_counted_ranges
  (spike_time t : instant) (w : window_name) (line : string) :
  spike_time mod 60 = 0 ->
  four_digit_year t ->
  let ws := define_windows spike_time in
  fst (window_bounds ws w) / 86400 = t / 86400 ->
  snd (window_bounds ws w) / 86400 = t / 86400 ->
  Awk.field 4 line = ("[" ++ strftime_access t)%string ->
  Awk.in_window 19 (strftime_access (fst (window_bounds ws w)))
    (strftime_access (snd (window_bounds ws w))) line
  = match w with
    | Before => (spike_time - 590 <=? t) && (t <=? spike_time - 1)
    | Spike => (spike_time + 10 <=? t) && (t <=? spike_time + 59)
    | After => (spike_time + 70 <=? t) && (t <=? spike_time + 669)
    end%bool.
Proof.
  intros Hmin Ht ws Hs He Hfield.
  rewrite (in_window_19_same_day _ _ t line Ht Hs He Hfield).
  unfold ws. rewrite define_windows_bounds.
  destruct w; cbn [fst snd];
    match goal with
    | |- ((?a <? ?b) && (?c <=? ?d))%bool = ((?e <=? ?f) && (?g <=? ?h))%bool =>
        destruct (Z.ltb_spec a b); destruct (Z.leb_spec c d);
        destruct (Z.leb_spec e f); destruct (Z.leb_spec g h)
    end;
    first [reflexivity | exfalso; euclid].
Qed.

(** X17 at [t1], a full minute: a line stamped five seconds into the spike
    minute is not counted by the command of the spike window. *)
Lemma X17_counted_ranges_witness :
  Awk.in_window 19 (strftime_access (fst (window_bounds (define_windows t1) Spike)))
    (strftime_access (snd (window_bounds (define_windows t1) Spike)))
    (access_line (t1 + 5))
  = ((t1 + 10 <=? t1 + 5) && (t1 + 5 <=? t1 + 59))%bool.
Proof.
  apply (X17_counted_ranges t1 (t1 + 5) Spike (access_line (t1 + 5))).
  - reflexivity.
  - unfold four_digit_year, t1. lia.
  - reflexivity.
  - reflexivity.
  - reflexivity.
Defined.

(** ** Attribution and the order of the sites *)

Lemma max_spike_le_of_perm (l l' : log_counts_t) :
  (forall item, In item l -> In item l') ->
  max_spike (attribute l) <= max_spike (attribute l').
Proof.
  intros Hsub.
  destruct (attribute_inv l) as [_ [[H0 _] | [_ (l1 & name & c & l2 & Hd & _ & Hm & _)]]].
  - rewrite H0. destruct (attribute_inv l') as [_ [[H0' _] | [Hpos _]]]; lia.
  - destruct (attribute_inv l') as [Hmax' _]. rewrite <- Hm. apply (Hmax' name).
    apply Hsub. rewrite Hd. apply in_or_app. right. left. reflexivity.
Qed.

(** X18. Listing the same entries in another order never changes the
    maximum that the attribution reports; the site it names may change, but
    only to another site whose magnitude is that maximum. *)
Theorem X18_order_changes_only_ties (l l' : log_counts_t) :
  Permutation l l' ->
  max_spike (attribute l') = max_spike (attribute l) /\
  (forall name, Spike_site (attribute l') = Some name ->
     exists c, In (name, c) l /\ site_spike c = max_spike (attribute l)).
Proof.
  intros Hperm.
  assert (Heq : max_spike (attribute l') = max_spike (attribute l)).
  { apply Z.le_antisymm; apply max_spike_le_of_perm; intros item Hin.
    - apply (Permutation_in _ (Permutation_sym Hperm)), Hin.
    - apply (Permutation_in _ Hperm), Hin. }
  split; [exact Heq |]. intros name Hname.
  destruct (attribute_inv l') as [_ [[_ Hnone] | [_ (l1 & n & c & l2 & Hd & Hs & Hm & _)]]].
  - congruence.
  - assert (n = name) by congruence. subst n. exists c. split; [| congruence].
    apply (Permutation_in _ (Permutation_sym Hperm)).
    rewrite Hd. apply in_or_app. right. left. reflexivity.
Qed.

(** X18 on the example of the specification and its reverse. *)
Lemma X18_order_witness :
  max_spike (attribute counts_B_A) = max_spike (attribute counts_A_B) /\
  (forall name, Spike_site (attribute counts_B_A) = Some name ->
     exists c, In (name, c) counts_A_B /\ site_spike c = max_spike (attribute counts_A_B)).
Proof.
  apply (X18_order_changes_only_ties counts_A_B counts_B_A).
  apply perm_swap.
Defined.

(** ** The line stamped at the start of the spike window *)

(** In [awk] a proper prefix of a string is smaller than the string. *)
Lemma leb_proper_prefix (s : string) (n : nat) :
  (n < String.length s)%nat -> String.leb s (substring 0 n s) = false.
Proof.
  unfold String.leb. revert n. induction s as [| c s IH]; intros n Hn; cbn in Hn; [lia |].
  destruct n as [| n]; cbn; [reflexivity |].
  rewrite ascii_compare_refl. apply IH. lia.
Qed.

Lemma strftime_access_length (t : instant) :
  four_digit_year t -> String.length (strftime_access t) = 20%nat.
Proof.
  intros Ht. destruct (four_digit_year_day t Ht) as [Hday Htod].
  rewrite strftime_split, !string_length_app, date_str_length, tod_str_length
    by assumption.
  reflexivity.
Qed.

(** The filter of [count_logs] never prints a line stamped with its own
    lower bound: [substr($4, 2, 19)] is the stamp less its last digit. *)
Lemma in_window_19_at_start (start_time end_time : instant) (line : string) :
  four_digit_year start_time ->
  Awk.field 4 line = ("[" ++ strftime_access start_time)%string ->
  Awk.in_window 19 (strftime_access start_time) (strftime_access end_time) line
  = false.
Proof.
  intros Ht Hfield. unfold Awk.in_window, Awk.substr. rewrite Hfield.
  change (substring (2 - 1) 19 ("[" ++ strftime_access start_time))
    with (substring 0 19 (strftime_access start_time)).
  rewrite leb_proper_prefix by (rewrite strftime_access_length by exact Ht; lia).
  reflexivity.
Qed.

(** C5. The bounds of the three windows are as the invariant says, for
    every spike time: the window before the spike starts 10 minutes before
    it, the spike window starts at the spike time and ends one minute less
    one second later, the window after the spike ends 11 minutes after it;
    each window starts one second after the previous one ends, the three
    closed intervals are pairwise disjoint and cover exactly
    [pre_spike_start, post_spike_end], and the instant [spike_start] lies
    in the spike interval and not in the one before.  What is counted
    differs: a line stamped exactly [spike_start] is never printed by the
    filter of the spike window, whose [substr($4, 2, 19)] is a proper
    prefix of the lower bound, so that the count of the spike window on
    that line is 0; and when the window before the spike lies in the day of
    the spike, its filter prints the line unless the spike time is a
    multiple of ten seconds. *)
Theorem C5_line_at_spike_start_not_counted (spike_time : instant) (line : string) :
  four_digit_year spike_time ->
  Awk.field 4 line = ("[" ++ strftime_access spike_time)%string ->
  let ws := define_windows spike_time in
  (pre_spike_start ws = spike_time - 10 * 60 /\
   spike_start ws = spike_time /\
   spike_end ws = spike_start ws + 60 - 1 /\
   post_spike_end ws = spike_time + 11 * 60 /\
   spike_start ws = pre_spike_end ws + 1 /\
   post_spike_start ws = spike_end ws + 1) /\
  ((forall t, ~ (within (window_bounds ws Before) t /\ within (window_bounds ws Spike) t)) /\
   (forall t, ~ (within (window_bounds ws Spike) t /\ within (window_bounds ws After) t)) /\
   (forall t, ~ (within (window_bounds ws Before) t /\ within (window_bounds ws After) t)) /\
   (forall t,
      pre_spike_start ws <= t <= post_spike_end ws <->
      within (window_bounds ws Before) t \/
      within (window_bounds ws Spike) t \/
      within (window_bounds ws After) t)) /\
  (within (window_bounds ws Spike) (spike_start ws) /\
   ~ within (window_bounds ws Before) (spike_start ws)) /\
  Awk.in_window 19 (strftime_access (spike_start ws))
    (strftime_access (spike_end ws)) line = false /\
  (forall file, ~ In line (count_logs_filter (spike_start ws) (spike_end ws) file)) /\
  count_logs_on_file (spike_start ws) (spike_end ws) [line] = 0 /\
  ((spike_time - 600) / 86400 = spike_time / 86400 ->
   Awk.in_window 19 (strftime_access (pre_spike_start ws))
     (strftime_access (pre_spike_end ws)) line
   = negb (spike_time mod 10 =? 0)).
Proof.
  intros Hy Hfield ws.
  assert (Hspike : Awk.in_window 19 (strftime_access (spike_start ws))
                     (strftime_access (spike_end ws)) line = false)
    by (apply in_window_19_at_start; assumption).
  split; [| split; [| split; [| split; [exact Hspike | split; [| split]]]]].
  - unfold ws, define_windows, timedelta; cbn. repeat split; lia.
  - unfold ws, within, define_windows, timedelta; cbn. repeat split; intros; lia.
  - unfold ws, within, define_windows, timedelta; cbn. split; lia.
  - intros file Hin. unfold count_logs_filter, Awk.run in Hin.
    apply filter_In in Hin. destruct Hin as [_ Hin]. congruence.
  - unfold count_logs_on_file, count_logs_filter, Awk.run. cbn [filter].
    rewrite Hspike. reflexivity.
  - intros Hday.
    replace (pre_spike_start ws) with (spike_time - 600)
      by (unfold ws, define_windows, timedelta; cbn; lia).
    replace (pre_spike_end ws) with (spike_time - 1)
      by (unfold ws, define_windows, timedelta; cbn; lia).
    rewrite (in_window_19_same_day _ _ spike_time line Hy Hday) by (exact Hfield || euclid).
    destruct (Z.ltb_spec ((spike_time - 600) / 10) (spike_time / 10));
      destruct (Z.leb_spec (spike_time / 10) ((spike_time - 1) / 10));
      destruct (Z.eqb_spec (spike_time mod 10) 0);
      first [reflexivity | exfalso; euclid].
Qed.

(** C5 at 2025-02-01T01:00:00Z, on a line of gunicorn's format stamped with
    that instant: the stamp reads back as the start of the spike window,
    and neither the filter of the spike window nor the one of the window
    before prints the line. *)
Lemma C5_line_at_spike_start_witness :
  line_time (access_line (t1 + 3600))
  = Some (spike_start (define_windows (t1 + 3600))) /\
  count_logs_on_file (spike_start (define_windows (t1 + 3600)))
    (spike_end (define_windows (t1 + 3600))) [access_line (t1 + 3600)] = 0 /\
  Awk.in_window 19 (strftime_access (pre_spike_start (define_windows (t1 + 3600))))
    (strftime_access (pre_spike_end (define_windows (t1 + 3600))))
    (access_line (t1 + 3600)) = false.
Proof.
  assert (Hy : four_digit_year (t1 + 3600)) by (unfold four_digit_year, t1; lia).
  assert (Hfield : Awk.field 4 (access_line (t1 + 3600))
                   = ("[" ++ strftime_access (t1 + 3600))%string) by reflexivity.
  destruct (C5_line_at_spike_start_not_counted (t1 + 3600) (access_line (t1 + 3600))
              Hy Hfield) as (_ & _ & _ & _ & _ & Hcount & Hbefore).
  split; [reflexivity | split; [exact Hcount |]].
  rewrite Hbefore; reflexivity.
Defined.
